(** * phidata.aws.resource.elb.listener: the Listener resource

    A shallow embedding of [Listener] (create / read / update / delete of
    an ELBv2 listener through boto3) and the properties of its
    reconciliation contract.

    Python objects are values of [pyval]; a method of [Listener] is a
    computation that reads and writes [self.active_resource], may raise,
    and emits the log lines and the remote calls it performs, in order. *)

From Stdlib Require Import String List ZArith Bool.
Import ListNotations.
Open Scope string_scope.
Open Scope list_scope.

(* ------------------------------------------------------------------ *)
(** ** Python values *)

Module Py.

#[local] Set Warnings "-register-all".

(** The values that flow through the listener: [None], scalars, lists,
    dicts (insertion ordered, keyed by strings) and a bound method (the
    attribute [self.get_arn] without the call). *)
Inductive pyval : Type :=
| PNone
| PBool (b : bool)
| PInt (z : Z)
| PStr (s : string)
| PList (l : list pyval)
| PDict (d : list (string * pyval))
| PMethod (name : string).

Definition pydict : Type := list (string * pyval).

(** [v is None] *)
Definition is_none (v : pyval) : bool :=
  match v with PNone => true | _ => false end.

(** [isinstance(v, list)] *)
Definition isinstance_list (v : pyval) : bool :=
  match v with PList _ => true | _ => false end.

(** [type(v).__name__] *)
Definition type_name (v : pyval) : string :=
  match v with
  | PNone => "NoneType"
  | PBool _ => "bool"
  | PInt _ => "int"
  | PStr _ => "str"
  | PList _ => "list"
  | PDict _ => "dict"
  | PMethod _ => "method"
  end.

(** Lookup in a dict. *)
Fixpoint dict_get (d : pydict) (k : string) : option pyval :=
  match d with
  | [] => None
  | (k', v) :: d' => if String.eqb k k' then Some v else dict_get d' k
  end.

(** [d[k] = v]: replaces the value of an existing key in place, appends
    a new key at the end. *)
Fixpoint dict_set (d : pydict) (k : string) (v : pyval) : pydict :=
  match d with
  | [] => [(k, v)]
  | (k', v') :: d' =>
      if String.eqb k k' then (k', v) :: d' else (k', v') :: dict_set d' k v
  end.

(** Exceptions, all subclasses of [Exception]: botocore's [ClientError]
    and the others. *)
Inductive exn : Type :=
| ClientError (msg : string)
| AttributeError (msg : string)
| OtherException (cls msg : string).

Definition is_ClientError (e : exn) : bool :=
  match e with ClientError _ => true | _ => false end.

Inductive result (A : Type) : Type :=
| Ret (a : A)
| Raise (e : exn).
Arguments Ret {A} a.
Arguments Raise {A} e.

(** [v.get(k, default)]: defined on dicts only, an [AttributeError] on
    every other value. *)
Definition py_get (v : pyval) (k : string) (default : pyval) : result pyval :=
  match v with
  | PDict d =>
      Ret (match dict_get d k with Some x => x | None => default end)
  | _ =>
      Raise (AttributeError
               ("'" ++ type_name v ++ "' object has no attribute 'get'"))
  end.

End Py.
Import Py.

(* ------------------------------------------------------------------ *)
(** ** Observable events *)

(** The five logging functions the module imports. *)
Inductive log_fn : Type :=
| print_info_fn | print_warning_fn | print_error_fn
| logger_debug_fn | logger_error_fn.

(** What an f-string interpolates besides text: nothing, a response, or
    an exception. Their rendering is not modelled. *)
Inductive logobj : Type :=
| NoObj
| ObjVal (v : pyval)
| ObjExn (e : exn).

(** The four operations of the elbv2 service client. *)
Inductive remote_op : Type :=
| CreateListener | DescribeListeners | ModifyListener | DeleteListener.

Definition remote_op_eqb (a b : remote_op) : bool :=
  match a, b with
  | CreateListener, CreateListener
  | DescribeListeners, DescribeListeners
  | ModifyListener, ModifyListener
  | DeleteListener, DeleteListener => true
  | _, _ => false
  end.

Inductive event : Type :=
| Log (f : log_fn) (text : string) (obj : logobj)
| Call (op : remote_op) (kwargs : pydict).

(** The keyword arguments of the calls to [op] among [evs], in order. *)
Fixpoint calls_to (op : remote_op) (evs : list event) : list pydict :=
  match evs with
  | [] => []
  | Call op' kw :: evs' =>
      if remote_op_eqb op op' then kw :: calls_to op evs' else calls_to op evs'
  | Log _ _ _ :: evs' => calls_to op evs'
  end.

(* ------------------------------------------------------------------ *)
(** ** The monad of methods *)

(** One run of a method: what it returned or raised, the value of
    [self.active_resource] when it ended, the events it emitted. *)
Record run (A : Type) : Type := mkRun {
  returned : result A;
  active_resource : pyval;
  emitted : list event
}.
Arguments mkRun {A} _ _ _.
Arguments returned {A} _.
Arguments active_resource {A} _.
Arguments emitted {A} _.

(** A method, from the value of [self.active_resource] at its start. *)
Definition M (A : Type) : Type := pyval -> run A.

Definition ret {A} (a : A) : M A := fun c => mkRun (Ret a) c [].

(** The run [r] after the events [evs]. *)
Definition prepend {A} (evs : list event) (r : run A) : run A :=
  match r with
  | mkRun x c evs' => mkRun x c (evs ++ evs')
  end.

Definition bind {A B} (m : M A) (k : A -> M B) : M B :=
  fun c =>
    match m c with
    | mkRun (Ret a) c1 evs1 => prepend evs1 (k a c1)
    | mkRun (Raise e) c1 evs1 => mkRun (Raise e) c1 evs1
    end.

(** [try: body / except Exception as e: handler e] *)
Definition try_except {A} (body : M A) (handler : exn -> M A) : M A :=
  fun c =>
    match body c with
    | mkRun (Ret a) c1 evs1 => mkRun (Ret a) c1 evs1
    | mkRun (Raise e) c1 evs1 => prepend evs1 (handler e c1)
    end.

(** A call that returns or raises without touching [self]. *)
Definition lift {A} (r : result A) : M A := fun c => mkRun r c [].

Definition emit (e : event) : M unit := fun c => mkRun (Ret tt) c [e].

Definition get_active_resource : M pyval := fun c => mkRun (Ret c) c [].

(** [self.active_resource = v] *)
Definition set_active_resource (v : pyval) : M unit :=
  fun _ => mkRun (Ret tt) v [].

Declare Scope py_scope.
Delimit Scope py_scope with py.
Notation "x <- m ;; k" := (bind m (fun x => k))
  (at level 61, m at next level, right associativity) : py_scope.
Notation "m ;; k" := (bind m (fun _ => k))
  (at level 61, right associativity) : py_scope.
Open Scope py_scope.

Definition print_info (s : string) : M unit := emit (Log print_info_fn s NoObj).
Definition print_warning (s : string) : M unit :=
  emit (Log print_warning_fn s NoObj).
Definition print_error (s : string) : M unit :=
  emit (Log print_error_fn s NoObj).
(** [print_error(e)] *)
Definition print_error_exn (e : exn) : M unit :=
  emit (Log print_error_fn "" (ObjExn e)).
Definition logger_error (s : string) : M unit :=
  emit (Log logger_error_fn s NoObj).
Definition logger_debug (s : string) : M unit :=
  emit (Log logger_debug_fn s NoObj).
(** [logger.debug(f"<text>{v}")] *)
Definition logger_debug_val (s : string) (v : pyval) : M unit :=
  emit (Log logger_debug_fn s (ObjVal v)).
(** [logger.debug(f"<text>{e}")] *)
Definition logger_debug_exn (s : string) (e : exn) : M unit :=
  emit (Log logger_debug_fn s (ObjExn e)).

(* ------------------------------------------------------------------ *)
(** ** Collaborators *)

(** The referenced resources, through the one method the listener
    calls on them: [get_arn(aws_client)], an [Optional[str]] or an
    exception. *)
Record LoadBalancer : Type := { lb_get_arn : result (option string) }.
Record TargetGroup : Type := { tg_get_arn : result (option string) }.

(** The boto3 elbv2 client that [get_service_client(aws_client)] hands
    out: each operation maps its keyword arguments to a response or an
    exception. *)
Record ServiceClient : Type := {
  create_listener : pydict -> result pyval;
  describe_listeners : pydict -> result pyval;
  modify_listener : pydict -> result pyval;
  delete_listener : pydict -> result pyval
}.

Definition invoke (op : remote_op) (f : pydict -> result pyval)
    (kwargs : pydict) : M pyval :=
  fun c => mkRun (f kwargs) c [Call op kwargs].

(* ------------------------------------------------------------------ *)
(** ** class Listener(AwsResource) *)

Record Listener : Type := {
  name : string;
  load_balancer : option LoadBalancer;
  target_group : option TargetGroup;
  load_balancer_arn : option string;
  protocol : option string;
  port : option Z;
  ssl_policy : option string;
  certificates : option (list pyval);
  default_actions : option (list pyval);
  alpn_policy : option (list string);
  tags : option (list pyval)
}.

Definition resource_type : string := "Listener".
Definition service_name : string := "elbv2".

(** The two display methods [Listener] inherits from [AwsResource]. *)
Class AwsResource (R : Type) : Type := {
  get_resource_type : R -> string;
  get_resource_name : R -> string
}.

(** [if x is not None: not_null_args[k] = x] *)
Definition set_not_null (k : string) (x : option pyval) (args : pydict)
    : pydict :=
  match x with
  | Some v => dict_set args k v
  | None => args
  end.

Section Methods.

Context `{AwsResource Listener}.

Variable self : Listener.
Variable service_client : ServiceClient.

Definition get_load_balancer_arn : M (option string) :=
  match load_balancer_arn self with
  | Some arn => ret (Some arn)
  | None =>
      match load_balancer self with
      | Some lb => lift (lb_get_arn lb)
      | None => ret None
      end
  end.

(** Lines 76-94 of [_create]: the remote call and its validation. A
    [try] body that runs to its end yields [None] and falls through to
    the final [return False]. *)
Definition create_request (load_balancer_arn : string)
    (not_null_args : pydict) : M bool :=
  r <- try_except
         (create_response <-
            invoke CreateListener (create_listener service_client)
              (("LoadBalancerArn", PStr load_balancer_arn) :: not_null_args) ;;
          logger_debug_val "Create Response: " create_response ;;
          resource_dict <- lift (py_get create_response "Listeners" (PDict [])) ;;
          if negb (is_none resource_dict) then
            print_info ("Listener created: " ++ get_resource_name self) ;;
            set_active_resource create_response ;;
            ret (Some true)
          else ret None)
         (fun e =>
            print_error (get_resource_type self ++ " could not be created.") ;;
            print_error_exn e ;;
            ret None) ;;
  match r with
  | Some b => ret b
  | None => ret false
  end.

Definition _create : M bool :=
  print_info ("Creating " ++ get_resource_type self ++ ": "
              ++ get_resource_name self) ;;
  load_balancer_arn <- get_load_balancer_arn ;;
  match load_balancer_arn with
  | None =>
      logger_error "Load balancer ARN not available" ;;
      ret true
  | Some load_balancer_arn =>
      let not_null_args : pydict := [] in
      let not_null_args :=
        set_not_null "Protocol" (option_map PStr (protocol self)) not_null_args in
      let not_null_args :=
        set_not_null "Port" (option_map PInt (port self)) not_null_args in
      let not_null_args :=
        set_not_null "SslPolicy" (option_map PStr (ssl_policy self))
          not_null_args in
      let not_null_args :=
        set_not_null "Certificates" (option_map PList (certificates self))
          not_null_args in
      let not_null_args :=
        set_not_null "AlpnPolicy"
          (option_map (fun l => PList (map PStr l)) (alpn_policy self))
          not_null_args in
      let not_null_args :=
        set_not_null "Tags" (option_map PList (tags self)) not_null_args in
      match default_actions self with
      | Some actions =>
          create_request load_balancer_arn
            (dict_set not_null_args "DefaultActions" (PList actions))
      | None =>
          match target_group self with
          | Some tg =>
              target_group_arn <- lift (tg_get_arn tg) ;;
              match target_group_arn with
              | None =>
                  logger_error "Target group ARN not available" ;;
                  ret false
              | Some target_group_arn =>
                  create_request load_balancer_arn
                    (dict_set not_null_args "DefaultActions"
                       (PList [PDict [("Type", PStr "forward");
                                      ("TargetGroupArn",
                                       PStr target_group_arn)]]))
              end
          | None =>
              print_warning
                ("Neither target group nor default actions provided for "
                 ++ get_resource_name self) ;;
              ret true
          end
      end
  end.

(** The [try] body yields [Some v] at a [return v] and [None] when it
    runs to its end; both handlers end without returning, so the method
    then returns [self.active_resource]. *)
Definition _read : M pyval :=
  logger_debug ("Reading " ++ get_resource_type self ++ ": "
                ++ get_resource_name self) ;;
  r <- try_except
         (load_balancer_arn <- get_load_balancer_arn ;;
          match load_balancer_arn with
          | None => ret (Some PNone)
          | Some load_balancer_arn =>
              describe_response <-
                invoke DescribeListeners (describe_listeners service_client)
                  [("LoadBalancerArn", PStr load_balancer_arn)] ;;
              logger_debug_val "Describe Response: " describe_response ;;
              resource_list <- lift (py_get describe_response "Listeners" PNone) ;;
              match resource_list with
              | PList l =>
                  set_active_resource
                    (match l with x :: _ => x | [] => PNone end)
              | _ => ret tt
              end ;;
              ret None
          end)
         (fun e =>
            (if is_ClientError e then
               logger_debug_exn "ClientError: " e
             else
               print_error ("Error reading " ++ get_resource_type self ++ ".") ;;
               print_error_exn e) ;;
            ret None) ;;
  match r with
  | Some v => ret v
  | None => get_active_resource
  end.

Definition get_arn : M pyval :=
  listener <- _read ;;
  if is_none listener then ret PNone
  else lift (py_get listener "ListenerArn" PNone).

Definition _delete : M bool :=
  print_info ("Deleting " ++ get_resource_type self ++ ": "
              ++ get_resource_name self) ;;
  set_active_resource PNone ;;
  r <- try_except
         (listener_arn <- get_arn ;;
          if is_none listener_arn then
            print_error ("Listener " ++ get_resource_name self ++ " not found.") ;;
            ret (Some true)
          else
            delete_response <-
              invoke DeleteListener (delete_listener service_client)
                [("ListenerArn", listener_arn)] ;;
            logger_debug_val "Delete Response: " delete_response ;;
            print_info (get_resource_type self ++ ": " ++ get_resource_name self
                        ++ " deleted") ;;
            ret (Some true))
         (fun e =>
            print_error (get_resource_type self ++ " could not be deleted.") ;;
            print_error "Please try again or delete resources manually." ;;
            print_error_exn e ;;
            ret None) ;;
  match r with
  | Some b => ret b
  | None => ret false
  end.

(** Line 163 reads the attribute [self.get_arn] and does not call it:
    [listener_arn] is the bound method. *)
Definition _update : M bool :=
  print_info ("Updating " ++ get_resource_type self ++ ": "
              ++ get_resource_name self) ;;
  let listener_arn := PMethod "get_arn" in
  if is_none listener_arn then
    print_error ("Listener " ++ get_resource_name self ++ " not found.") ;;
    ret true
  else
    let not_null_args : pydict := [] in
    let not_null_args :=
      set_not_null "Protocol" (option_map PStr (protocol self)) not_null_args in
    let not_null_args :=
      set_not_null "Port" (option_map PInt (port self)) not_null_args in
    let not_null_args :=
      set_not_null "SslPolicy" (option_map PStr (ssl_policy self))
        not_null_args in
    let not_null_args :=
      set_not_null "Certificates" (option_map PList (certificates self))
        not_null_args in
    let not_null_args :=
      set_not_null "DefaultActions" (option_map PList (default_actions self))
        not_null_args in
    let not_null_args :=
      set_not_null "AlpnPolicy"
        (option_map (fun l => PList (map PStr l)) (alpn_policy self))
        not_null_args in
    r <- try_except
           (create_response <-
              invoke ModifyListener (modify_listener service_client)
                (("ListenerArn", listener_arn) :: not_null_args) ;;
            logger_debug_val "Update Response: " create_response ;;
            resource_dict <- lift (py_get create_response "Listeners" (PDict [])) ;;
            if negb (is_none resource_dict) then
              print_info ("Listener updated: " ++ get_resource_name self) ;;
              set_active_resource create_response ;;
              ret (Some true)
            else ret None)
           (fun e =>
              print_error (get_resource_type self ++ " could not be created.") ;;
              print_error_exn e ;;
              ret None) ;;
    match r with
    | Some b => ret b
    | None => ret false
    end.

End Methods.

(* ------------------------------------------------------------------ *)
(** ** Sample data *)

Module Sample.

(** [get_resource_type] and [get_resource_name] as the class attribute
    and the [name] field. *)
Definition base : AwsResource Listener :=
  {| get_resource_type := fun _ => resource_type;
     get_resource_name := name |}.

Definition tg_1 : TargetGroup := {| tg_get_arn := Ret (Some "tg-1") |}.
Definition tg_gone : TargetGroup := {| tg_get_arn := Ret None |}.

Definition action_A : pyval :=
  PDict [("Type", PStr "redirect");
         ("RedirectConfig", PDict [("StatusCode", PStr "HTTP_301")])].

(** A listener on port 443 of the load balancer ["lb-1"], routed by
    [actions] or else to [tg]. *)
Definition listener_on (lb_arn : option string)
    (actions : option (list pyval)) (tg : option TargetGroup) : Listener :=
  {| name := "web"; load_balancer := None; target_group := tg;
     load_balancer_arn := lb_arn; protocol := Some "HTTPS";
     port := Some 443%Z; ssl_policy := None; certificates := None;
     default_actions := actions; alpn_policy := None; tags := None |}.

Definition bare : Listener := listener_on (Some "lb-1") None None.
Definition orphan : Listener := listener_on None None (Some tg_1).
Definition with_actions : Listener :=
  listener_on (Some "lb-1") (Some [action_A]) (Some tg_1).
Definition forwarding : Listener := listener_on (Some "lb-1") None (Some tg_1).
Definition dangling : Listener := listener_on (Some "lb-1") None (Some tg_gone).

Definition L1 : pyval :=
  PDict [("ListenerArn", PStr "l-80"); ("Port", PInt 80)].
Definition L2 : pyval :=
  PDict [("ListenerArn", PStr "l-443"); ("Port", PInt 443)].

Definition response (listeners : pyval) : pyval :=
  PDict [("Listeners", listeners); ("ResponseMetadata", PDict [])].

Definition unreachable : exn :=
  OtherException "EndpointConnectionError" "could not connect".

(** boto3 validates parameters before it sends a request: an ARN that
    is not a string is refused. *)
Definition validated (arn_key : string) (answer : result pyval)
    (kwargs : pydict) : result pyval :=
  match dict_get kwargs arn_key with
  | Some (PStr _) => answer
  | _ =>
      Raise (OtherException "ParamValidationError"
               ("Invalid type for parameter " ++ arn_key))
  end.

(** A service client whose [describe_listeners] answers [described]
    and whose [create_listener] answers [created]. *)
Definition client (described created : result pyval) : ServiceClient :=
  {| create_listener := validated "LoadBalancerArn" created;
     describe_listeners := validated "LoadBalancerArn" described;
     modify_listener := validated "ListenerArn" (Ret (response (PList [L2])));
     delete_listener := validated "ListenerArn" (Ret (PDict [])) |}.

(** A load balancer with the two listeners [L1] and [L2]. *)
Definition two_listeners : ServiceClient :=
  client (Ret (response (PList [L1; L2]))) (Ret (response (PList [L2]))).

End Sample.

(** Collaborators that fail, and responses that are not what the API
    documents. *)
Module Faulty.

Definition lb_down : LoadBalancer :=
  {| lb_get_arn := Raise Sample.unreachable |}.
Definition tg_down : TargetGroup :=
  {| tg_get_arn := Raise Sample.unreachable |}.

(** A listener that finds its load balancer through the reference
    [lb]. *)
Definition behind (lb : LoadBalancer) (tg : option TargetGroup) : Listener :=
  {| name := "web"; load_balancer := Some lb; target_group := tg;
     load_balancer_arn := None; protocol := Some "HTTPS";
     port := Some 443%Z; ssl_policy := None; certificates := None;
     default_actions := None; alpn_policy := None; tags := None |}.

(** A listener with every optional field set. *)
Definition full : Listener :=
  {| name := "web"; load_balancer := None; target_group := Some Sample.tg_1;
     load_balancer_arn := Some "lb-1"; protocol := Some "HTTPS";
     port := Some 443%Z; ssl_policy := Some "ELBSecurityPolicy-2016-08";
     certificates := Some [PDict [("CertificateArn", PStr "cert-1")]];
     default_actions := Some [Sample.action_A];
     alpn_policy := Some ["HTTP2Preferred"];
     tags := Some [PDict [("Key", PStr "env"); ("Value", PStr "prd")]] |}.

(** A client that answers every request with [r]. *)
Definition answering (r : result pyval) : ServiceClient :=
  {| create_listener := fun _ => r;
     describe_listeners := fun _ => r;
     modify_listener := fun _ => r;
     delete_listener := fun _ => r |}.

(** A client that lists [listeners] and refuses to delete. *)
Definition undeletable (listeners : pyval) : ServiceClient :=
  {| create_listener := fun _ => Raise Sample.unreachable;
     describe_listeners := fun _ => Ret (Sample.response listeners);
     modify_listener := fun _ => Raise Sample.unreachable;
     delete_listener := fun _ => Raise (ClientError "ResourceInUse") |}.

End Faulty.

(* ------------------------------------------------------------------ *)
(** ** Running methods *)

(** [m] returns [a] without touching [self] and without any event. *)
Definition resolves {A} (m : M A) (a : A) : Prop :=
  forall c, m c = mkRun (Ret a) c [].

(** [m] raises [e] without touching [self] and without any event. *)
Definition fails {A} (m : M A) (e : exn) : Prop :=
  forall c, m c = mkRun (Raise e) c [].

(** Unfolds the monad and the logging functions, and reduces. *)
Ltac run :=
  cbv beta iota zeta
      delta [bind try_except prepend ret lift emit invoke
             get_active_resource set_active_resource
             print_info print_warning print_error print_error_exn
             logger_error logger_debug logger_debug_val logger_debug_exn
             returned active_resource emitted];
  cbn [app].

Lemma prepend_nil {A} (r : run A) : prepend [] r = r.
Proof. now destruct r. Qed.

Lemma emitted_prepend {A} evs (r : run A) :
  emitted (prepend evs r) = evs ++ emitted r.
Proof. now destruct r. Qed.

Lemma returned_prepend {A} evs (r : run A) :
  returned (prepend evs r) = returned r.
Proof. now destruct r. Qed.

Lemma active_resource_prepend {A} evs (r : run A) :
  active_resource (prepend evs r) = active_resource r.
Proof. now destruct r. Qed.

Lemma bind_resolves {A B} (m : M A) (k : A -> M B) a c :
  resolves m a -> bind m k c = k a c.
Proof.
  intros Hm. unfold bind. rewrite (Hm c). apply prepend_nil.
Qed.

Lemma bind_emit {B} (ev : event) (k : unit -> M B) c :
  bind (emit ev) k c = prepend [ev] (k tt c).
Proof. reflexivity. Qed.

Lemma bind_lift {A B} (r : result A) (k : A -> M B) c :
  bind (lift r) k c =
  match r with
  | Ret a => k a c
  | Raise e => mkRun (Raise e) c []
  end.
Proof.
  unfold bind, lift. destruct r; [apply prepend_nil|reflexivity].
Qed.

Lemma calls_to_app op evs1 evs2 :
  calls_to op (evs1 ++ evs2) = calls_to op evs1 ++ calls_to op evs2.
Proof.
  induction evs1 as [|[f t o|op' kw] evs1 IH]; cbn; auto.
  destruct (remote_op_eqb op op'); cbn; now rewrite IH.
Qed.

Lemma dict_get_set_same d k v : dict_get (dict_set d k v) k = Some v.
Proof.
  induction d as [|[k' v'] d IH]; cbn.
  - now rewrite String.eqb_refl.
  - destruct (String.eqb k k') eqn:E; cbn; rewrite E; auto.
Qed.

Section ResolveFacts.

Context `{AwsResource Listener}.
Variable self : Listener.

(** Resolving the load-balancer ARN never touches [self] and emits
    nothing: it returns an optional ARN or raises. *)
Lemma get_load_balancer_arn_run c :
  get_load_balancer_arn self c =
  mkRun (returned (get_load_balancer_arn self PNone)) c [].
Proof.
  unfold get_load_balancer_arn.
  destruct (load_balancer_arn self); [reflexivity|].
  destruct (load_balancer self); reflexivity.
Qed.

Lemma bind_get_load_balancer_arn {B} (k : option string -> M B) c :
  bind (get_load_balancer_arn self) k c =
  match returned (get_load_balancer_arn self PNone) with
  | Ret a => k a c
  | Raise e => mkRun (Raise e) c []
  end.
Proof.
  unfold bind. rewrite get_load_balancer_arn_run.
  destruct (returned (get_load_balancer_arn self PNone));
    [apply prepend_nil|reflexivity].
Qed.

Lemma explicit_arn_resolves arn :
  load_balancer_arn self = Some arn ->
  resolves (get_load_balancer_arn self) (Some arn).
Proof.
  intros E c. unfold get_load_balancer_arn. rewrite E. reflexivity.
Qed.

Lemma referenced_arn_resolves lb o :
  load_balancer_arn self = None -> load_balancer self = Some lb ->
  lb_get_arn lb = Ret o ->
  resolves (get_load_balancer_arn self) o.
Proof.
  intros E1 E2 E3 c. unfold get_load_balancer_arn.
  rewrite E1, E2, E3. reflexivity.
Qed.

Lemma no_reference_resolves :
  load_balancer_arn self = None -> load_balancer self = None ->
  resolves (get_load_balancer_arn self) None.
Proof.
  intros E1 E2 c. unfold get_load_balancer_arn. rewrite E1, E2. reflexivity.
Qed.

End ResolveFacts.

(* ------------------------------------------------------------------ *)
(** ** read *)

Section ReadFacts.

Context `{AwsResource Listener}.
Variable self : Listener.
Variable service_client : ServiceClient.

(** What [_read] does once [describe_listeners] has answered, by the
    shape of the ["Listeners"] entry. *)
Lemma read_described arn resp listeners c :
  resolves (get_load_balancer_arn self) (Some arn) ->
  describe_listeners service_client [("LoadBalancerArn", PStr arn)] = Ret resp ->
  py_get resp "Listeners" PNone = Ret listeners ->
  _read self service_client c =
  let read_events :=
    [Log logger_debug_fn
       ("Reading " ++ get_resource_type self ++ ": " ++ get_resource_name self)
       NoObj;
     Call DescribeListeners [("LoadBalancerArn", PStr arn)];
     Log logger_debug_fn "Describe Response: " (ObjVal resp)] in
  match listeners with
  | PList (x :: _) => mkRun (Ret x) x read_events
  | PList [] => mkRun (Ret PNone) PNone read_events
  | _ => mkRun (Ret c) c read_events
  end.
Proof.
  intros Hlb Hd Hg. unfold _read. run.
  rewrite (Hlb c). run. rewrite Hd. run. rewrite Hg. run.
  destruct listeners as [| | | |[|x l]| |]; reflexivity.
Qed.

(** What [_read] does when [describe_listeners] raises. *)
Lemma read_describe_raises arn e c :
  resolves (get_load_balancer_arn self) (Some arn) ->
  describe_listeners service_client [("LoadBalancerArn", PStr arn)] = Raise e ->
  _read self service_client c =
  mkRun (Ret c) c
    ([Log logger_debug_fn
        ("Reading " ++ get_resource_type self ++ ": " ++ get_resource_name self)
        NoObj;
      Call DescribeListeners [("LoadBalancerArn", PStr arn)]]
     ++ if is_ClientError e then
          [Log logger_debug_fn "ClientError: " (ObjExn e)]
        else
          [Log print_error_fn ("Error reading " ++ get_resource_type self ++ ".")
             NoObj;
           Log print_error_fn "" (ObjExn e)]).
Proof.
  intros Hlb Hd. unfold _read. run.
  rewrite (Hlb c). run. rewrite Hd. run.
  destruct (is_ClientError e); reflexivity.
Qed.

(** With no load-balancer ARN, [_read] returns [None] at once and
    leaves the cache as it is. *)
Lemma read_unresolved c :
  resolves (get_load_balancer_arn self) None ->
  _read self service_client c =
  mkRun (Ret PNone) c
    [Log logger_debug_fn
       ("Reading " ++ get_resource_type self ++ ": " ++ get_resource_name self)
       NoObj].
Proof.
  intros Hlb. unfold _read. run. rewrite (Hlb c). reflexivity.
Qed.

(** An exception of the load-balancer resolution is handled like one
    of the remote call: the cached value is returned. *)
Lemma read_resolution_raises e c :
  fails (get_load_balancer_arn self) e ->
  returned (_read self service_client c) = Ret c
  /\ active_resource (_read self service_client c) = c.
Proof.
  intros Hf. unfold _read. run. rewrite (Hf c). run.
  destruct (is_ClientError e); split; reflexivity.
Qed.

(** [_read] never raises: every exception of its body is handled. *)
Lemma read_total c : exists v, returned (_read self service_client c) = Ret v.
Proof.
  unfold _read. run. rewrite get_load_balancer_arn_run.
  destruct (returned (get_load_balancer_arn self PNone)) as [[arn|]|e]; run.
  - destruct (describe_listeners service_client _) as [resp|e]; run.
    + destruct (py_get resp "Listeners" PNone) as [l|e]; run.
      * destruct l; run; eauto.
      * destruct (is_ClientError e); run; eauto.
    + destruct (is_ClientError e); run; eauto.
  - eauto.
  - destruct (is_ClientError e); run; eauto.
Qed.

(** The only remote operation [_read] uses is [describe_listeners]. *)
Lemma read_calls op c :
  remote_op_eqb op DescribeListeners = false ->
  calls_to op (emitted (_read self service_client c)) = [].
Proof.
  intros Hop.
  unfold _read. run. rewrite get_load_balancer_arn_run.
  destruct (returned (get_load_balancer_arn self PNone)) as [[arn|]|e]; run.
  - destruct (describe_listeners service_client _) as [resp|e]; run.
    + destruct (py_get resp "Listeners" PNone) as [l|e]; run.
      * destruct l; run; cbn; now rewrite Hop.
      * destruct (is_ClientError e); run; cbn; now rewrite Hop.
    + destruct (is_ClientError e); run; cbn; now rewrite Hop.
  - reflexivity.
  - destruct (is_ClientError e); reflexivity.
Qed.

End ReadFacts.

(* ------------------------------------------------------------------ *)
(** ** create *)

Section CreateFacts.

Context `{AwsResource Listener}.
Variable self : Listener.
Variable service_client : ServiceClient.

(** The remote call of [_create] and its three ways out. *)
Lemma create_request_run arn args c :
  create_request self service_client arn args c =
  let kw := ("LoadBalancerArn", PStr arn) :: args in
  let failed e :=
    [Log print_error_fn (get_resource_type self ++ " could not be created.")
       NoObj;
     Log print_error_fn "" (ObjExn e)] in
  match create_listener service_client kw with
  | Raise e => mkRun (Ret false) c (Call CreateListener kw :: failed e)
  | Ret resp =>
      let sent :=
        [Call CreateListener kw;
         Log logger_debug_fn "Create Response: " (ObjVal resp)] in
      match py_get resp "Listeners" (PDict []) with
      | Raise e => mkRun (Ret false) c (sent ++ failed e)
      | Ret listeners =>
          if is_none listeners then mkRun (Ret false) c sent
          else mkRun (Ret true) resp
                 (sent ++ [Log print_info_fn
                             ("Listener created: " ++ get_resource_name self)
                             NoObj])
      end
  end.
Proof.
  unfold create_request. run.
  destruct (create_listener service_client _) as [resp|e]; run; [|reflexivity].
  destruct (py_get resp "Listeners" (PDict [])) as [l|e]; run; [|reflexivity].
  destruct (is_none l); reflexivity.
Qed.

Lemma create_request_calls arn args c :
  calls_to CreateListener
    (emitted (create_request self service_client arn args c)) =
  [("LoadBalancerArn", PStr arn) :: args].
Proof.
  rewrite create_request_run. cbv zeta.
  destruct (create_listener service_client _) as [resp|e]; [|reflexivity].
  destruct (py_get resp "Listeners" (PDict [])) as [l|e]; [|reflexivity].
  destruct (is_none l); reflexivity.
Qed.

(** Every run of [_create] either makes no remote call at all, or is
    the one remote request after the opening log line. *)
Lemma create_run_cases c :
  (forall op, calls_to op (emitted (_create self service_client c)) = [])
  \/ exists arn args,
       _create self service_client c =
       prepend
         [Log print_info_fn
            ("Creating " ++ get_resource_type self ++ ": "
             ++ get_resource_name self) NoObj]
         (create_request self service_client arn args c).
Proof.
  unfold _create, print_info.
  rewrite bind_emit, bind_get_load_balancer_arn.
  destruct (returned (get_load_balancer_arn self PNone)) as [[arn|]|e].
  - destruct (default_actions self) as [acts|].
    + right. eexists _, _. reflexivity.
    + destruct (target_group self) as [tg|].
      * rewrite bind_lift.
        destruct (tg_get_arn tg) as [[tga|]|e].
        -- right. eexists _, _. reflexivity.
        -- left. intros op. reflexivity.
        -- left. intros op. reflexivity.
      * left. intros op. reflexivity.
  - left. intros op. reflexivity.
  - left. intros op. reflexivity.
Qed.

(** The request that [_create] issued, and the run it determines. *)
Lemma create_issued c kw :
  calls_to CreateListener (emitted (_create self service_client c)) = [kw] ->
  exists arn args,
    kw = ("LoadBalancerArn", PStr arn) :: args
    /\ _create self service_client c =
       prepend
         [Log print_info_fn
            ("Creating " ++ get_resource_type self ++ ": "
             ++ get_resource_name self) NoObj]
         (create_request self service_client arn args c).
Proof.
  intros Hc.
  destruct (create_run_cases c) as [Hn|(arn & args & E)].
  - rewrite Hn in Hc. discriminate.
  - exists arn, args. split; [|exact E].
    rewrite E, emitted_prepend in Hc. cbn [app calls_to] in Hc.
    rewrite create_request_calls in Hc. now injection Hc.
Qed.

(** When the request that [_create] issued returns a response with a
    listener collection, the whole response is cached. *)
Lemma create_remote_success c kw resp listeners :
  calls_to CreateListener (emitted (_create self service_client c)) = [kw] ->
  create_listener service_client kw = Ret resp ->
  py_get resp "Listeners" (PDict []) = Ret listeners ->
  is_none listeners = false ->
  returned (_create self service_client c) = Ret true
  /\ active_resource (_create self service_client c) = resp.
Proof.
  intros Hc Hr Hg Hl.
  destruct (create_issued c kw Hc) as (arn & args & -> & E).
  rewrite E, returned_prepend, active_resource_prepend, create_request_run.
  cbv zeta. rewrite Hr, Hg, Hl. split; reflexivity.
Qed.

(** With no load-balancer ARN, [_create] logs an error and returns
    [True]. *)
Lemma create_unresolved_load_balancer c :
  resolves (get_load_balancer_arn self) None ->
  _create self service_client c =
  mkRun (Ret true) c
    [Log print_info_fn
       ("Creating " ++ get_resource_type self ++ ": "
        ++ get_resource_name self) NoObj;
     Log logger_error_fn "Load balancer ARN not available" NoObj].
Proof.
  intros Hlb. unfold _create, print_info. rewrite bind_emit, (bind_resolves _ _ _ _ Hlb).
  reflexivity.
Qed.

(** The run of [_create] once its request is settled. *)
Lemma create_with_default_actions c arn actions :
  resolves (get_load_balancer_arn self) (Some arn) ->
  default_actions self = Some actions ->
  exists args,
    dict_get args "DefaultActions" = Some (PList actions)
    /\ _create self service_client c =
       prepend
         [Log print_info_fn
            ("Creating " ++ get_resource_type self ++ ": "
             ++ get_resource_name self) NoObj]
         (create_request self service_client arn args c).
Proof.
  intros Hlb Ha. unfold _create, print_info.
  rewrite bind_emit, (bind_resolves _ _ _ _ Hlb), Ha.
  eexists. split; [|reflexivity]. apply dict_get_set_same.
Qed.

Lemma create_with_target_group c arn tg tg_arn :
  resolves (get_load_balancer_arn self) (Some arn) ->
  default_actions self = None -> target_group self = Some tg ->
  tg_get_arn tg = Ret (Some tg_arn) ->
  exists args,
    dict_get args "DefaultActions" =
    Some (PList [PDict [("Type", PStr "forward");
                        ("TargetGroupArn", PStr tg_arn)]])
    /\ _create self service_client c =
       prepend
         [Log print_info_fn
            ("Creating " ++ get_resource_type self ++ ": "
             ++ get_resource_name self) NoObj]
         (create_request self service_client arn args c).
Proof.
  intros Hlb Ha Ht Hr. unfold _create, print_info.
  rewrite bind_emit, (bind_resolves _ _ _ _ Hlb), Ha, Ht.
  rewrite (bind_resolves (lift (tg_get_arn tg)) _ (Some tg_arn))
    by (intros c'; unfold lift; now rewrite Hr).
  eexists. split; [|reflexivity]. apply dict_get_set_same.
Qed.

End CreateFacts.

(* ------------------------------------------------------------------ *)
(** ** delete and update *)

Section DeleteUpdateFacts.

Context `{AwsResource Listener}.
Variable self : Listener.
Variable service_client : ServiceClient.

(** [get_arn] is [_read] followed by a lookup: same cache, same
    events. *)
Lemma get_arn_run c :
  get_arn self service_client c =
  let r := _read self service_client c in
  mkRun (match returned r with
         | Ret listener =>
             if is_none listener then Ret PNone
             else py_get listener "ListenerArn" PNone
         | Raise e => Raise e
         end)
        (active_resource r) (emitted r).
Proof.
  unfold get_arn, bind. cbv zeta.
  destruct (_read self service_client c) as [[v|e] a evs]; cbn;
    [|reflexivity].
  destruct (is_none v); cbn; now rewrite app_nil_r.
Qed.

Lemma get_arn_calls op c :
  remote_op_eqb op DescribeListeners = false ->
  calls_to op (emitted (get_arn self service_client c)) = [].
Proof.
  intros Hop. rewrite get_arn_run. cbn. now apply read_calls.
Qed.

(** [_delete] clears the cache, resolves the listener ARN on the
    cleared cache, and then has four ways out. *)
Lemma delete_run c :
  _delete self service_client c =
  let g := get_arn self service_client PNone in
  let opening :=
    Log print_info_fn
      ("Deleting " ++ get_resource_type self ++ ": " ++ get_resource_name self)
      NoObj in
  let failed e :=
    [Log print_error_fn (get_resource_type self ++ " could not be deleted.")
       NoObj;
     Log print_error_fn "Please try again or delete resources manually." NoObj;
     Log print_error_fn "" (ObjExn e)] in
  match returned g with
  | Raise e =>
      mkRun (Ret false) (active_resource g) (opening :: emitted g ++ failed e)
  | Ret listener_arn =>
      if is_none listener_arn then
        mkRun (Ret true) (active_resource g)
          (opening :: emitted g
           ++ [Log print_error_fn
                 ("Listener " ++ get_resource_name self ++ " not found.")
                 NoObj])
      else
        let kw := [("ListenerArn", listener_arn)] in
        match delete_listener service_client kw with
        | Ret resp =>
            mkRun (Ret true) (active_resource g)
              (opening :: emitted g
               ++ [Call DeleteListener kw;
                   Log logger_debug_fn "Delete Response: " (ObjVal resp);
                   Log print_info_fn
                     (get_resource_type self ++ ": " ++ get_resource_name self
                      ++ " deleted") NoObj])
        | Raise e =>
            mkRun (Ret false) (active_resource g)
              (opening :: emitted g ++ Call DeleteListener kw :: failed e)
        end
  end.
Proof.
  unfold _delete. run.
  destruct (get_arn self service_client PNone) as [[a|e] g evs];
    run; [|now rewrite app_nil_r].
  destruct (is_none a); run; [now rewrite app_nil_r|].
  destruct (delete_listener service_client _) as [resp|e];
    run; now rewrite ?app_nil_r, <- ?app_assoc.
Qed.

(** Whatever was cached before, the cache after [_delete] is the one
    the nested [_read] leaves when it starts from a cleared cache. *)
Lemma delete_cache c :
  active_resource (_delete self service_client c) =
  active_resource (_read self service_client PNone).
Proof.
  rewrite delete_run, get_arn_run. cbv zeta. cbn [returned active_resource].
  destruct (_read self service_client PNone) as [[v|e] a evs];
    cbn [returned active_resource]; [|reflexivity].
  destruct (is_none v); [reflexivity|].
  destruct (py_get v "ListenerArn" PNone) as [x|e]; [|reflexivity].
  destruct (is_none x); [reflexivity|].
  destruct (delete_listener service_client _); reflexivity.
Qed.

(** [_update] never branches on the listener ARN: it always sends one
    [modify_listener] request, whose [ListenerArn] is the bound method,
    and has three ways out. *)
Lemma update_run c :
  exists args,
    _update self service_client c =
    let kw := ("ListenerArn", PMethod "get_arn") :: args in
    let opening :=
      Log print_info_fn
        ("Updating " ++ get_resource_type self ++ ": "
         ++ get_resource_name self) NoObj in
    let failed e :=
      [Log print_error_fn (get_resource_type self ++ " could not be created.")
         NoObj;
       Log print_error_fn "" (ObjExn e)] in
    match modify_listener service_client kw with
    | Raise e =>
        mkRun (Ret false) c (opening :: Call ModifyListener kw :: failed e)
    | Ret resp =>
        let sent :=
          [opening; Call ModifyListener kw;
           Log logger_debug_fn "Update Response: " (ObjVal resp)] in
        match py_get resp "Listeners" (PDict []) with
        | Raise e => mkRun (Ret false) c (sent ++ failed e)
        | Ret listeners =>
            if is_none listeners then mkRun (Ret false) c sent
            else mkRun (Ret true) resp
                   (sent ++ [Log print_info_fn
                               ("Listener updated: " ++ get_resource_name self)
                               NoObj])
        end
    end.
Proof.
  unfold _update. cbv zeta. cbn [is_none].
  match goal with
  | |- context [invoke ModifyListener _ (_ :: ?a)] => exists a
  end.
  run.
  destruct (modify_listener service_client _) as [resp|e]; run; [|reflexivity].
  destruct (py_get resp "Listeners" (PDict [])) as [l|e]; run; [|reflexivity].
  destruct (is_none l); reflexivity.
Qed.

(** For every spec, client and cache, [_update] sends exactly one
    [modify_listener] request, with the bound method as its ARN, and
    never reads. *)
Lemma update_calls c :
  calls_to DescribeListeners (emitted (_update self service_client c)) = []
  /\ exists args,
       calls_to ModifyListener (emitted (_update self service_client c)) =
       [("ListenerArn", PMethod "get_arn") :: args].
Proof.
  destruct (update_run c) as [args E]. cbv zeta in E. rewrite E.
  split; [|exists args];
    (destruct (modify_listener service_client _) as [resp|e]; [|reflexivity];
     destruct (py_get resp "Listeners" (PDict [])) as [l|e]; [|reflexivity];
     destruct (is_none l); reflexivity).
Qed.

(** When the [modify_listener] request that [_update] sends returns a
    response with a listener collection, the whole response is cached
    and [_update] returns [True]. *)
Lemma update_remote_success c kw resp listeners :
  calls_to ModifyListener (emitted (_update self service_client c)) = [kw] ->
  modify_listener service_client kw = Ret resp ->
  py_get resp "Listeners" (PDict []) = Ret listeners ->
  is_none listeners = false ->
  returned (_update self service_client c) = Ret true
  /\ active_resource (_update self service_client c) = resp.
Proof.
  intros Hc.
  destruct (update_run c) as [args E]. cbv zeta in E.
  assert (Hk : calls_to ModifyListener
                 (emitted (_update self service_client c))
               = [("ListenerArn", PMethod "get_arn") :: args]).
  { rewrite E.
    destruct (modify_listener service_client _) as [r|e]; [|reflexivity].
    destruct (py_get r "Listeners" (PDict [])) as [l|e]; [|reflexivity].
    destruct (is_none l); reflexivity. }
  rewrite Hk in Hc. injection Hc as <-. intros Hr Hg Hl.
  rewrite E, Hr, Hg, Hl. split; reflexivity.
Qed.

End DeleteUpdateFacts.

(* ------------------------------------------------------------------ *)
(** ** The reconciliation contract *)

Section Contract.

Context `{AwsResource Listener}.
Variable self : Listener.
Variable service_client : ServiceClient.

(** C8. When the load-balancer ARN resolves and [describe_listeners]
    answers with a non-empty listener collection [L1 :: rest], [_read]
    returns [L1] (and caches it), whatever the port and protocol of the
    spec and of [L1] are. *)
Theorem read_returns_first_listener c arn resp L1 rest :
  resolves (get_load_balancer_arn self) (Some arn) ->
  describe_listeners service_client [("LoadBalancerArn", PStr arn)] = Ret resp ->
  py_get resp "Listeners" PNone = Ret (PList (L1 :: rest)) ->
  returned (_read self service_client c) = Ret L1
  /\ active_resource (_read self service_client c) = L1.
Proof.
  intros Hlb Hd Hg. rewrite (read_described _ _ _ _ _ c Hlb Hd Hg).
  split; reflexivity.
Qed.

(** C2, as amended. Once [describe_listeners] has answered: a
    non-empty listener collection makes [_read] cache and return its
    first record; an empty collection makes it clear the cache and
    return [None]; an absent collection (no ["Listeners"] entry, or one
    that is not a list) makes it return the previously cached value and
    leave the cache unchanged. *)
Theorem read_caches_found_else_falls_back c arn resp listeners :
  resolves (get_load_balancer_arn self) (Some arn) ->
  describe_listeners service_client [("LoadBalancerArn", PStr arn)] = Ret resp ->
  py_get resp "Listeners" PNone = Ret listeners ->
  (forall x rest, listeners = PList (x :: rest) ->
     returned (_read self service_client c) = Ret x
     /\ active_resource (_read self service_client c) = x)
  /\ (listeners = PList [] ->
     returned (_read self service_client c) = Ret PNone
     /\ active_resource (_read self service_client c) = PNone)
  /\ (isinstance_list listeners = false ->
     returned (_read self service_client c) = Ret c
     /\ active_resource (_read self service_client c) = c).
Proof.
  intros Hlb Hd Hg. rewrite (read_described _ _ _ _ _ c Hlb Hd Hg).
  split; [|split].
  - intros x rest ->. split; reflexivity.
  - intros ->. split; reflexivity.
  - intros Hl. destruct listeners; try discriminate Hl; split; reflexivity.
Qed.

(** C4, as amended. When [describe_listeners] raises, [_read] raises
    nothing, leaves the cache unchanged and returns the previously
    cached value; a [ClientError] leaves only debug lines in the log,
    any other exception is printed as an error. *)
Theorem read_error_returns_cached c arn e :
  resolves (get_load_balancer_arn self) (Some arn) ->
  describe_listeners service_client [("LoadBalancerArn", PStr arn)] = Raise e ->
  returned (_read self service_client c) = Ret c
  /\ active_resource (_read self service_client c) = c
  /\ (is_ClientError e = true ->
      forall f text obj,
        In (Log f text obj) (emitted (_read self service_client c)) ->
        f = logger_debug_fn)
  /\ (is_ClientError e = false ->
      In (Log print_error_fn "" (ObjExn e))
         (emitted (_read self service_client c))).
Proof.
  intros Hlb Hd. rewrite (read_describe_raises _ _ _ _ c Hlb Hd).
  repeat split.
  - intros HE f text obj. rewrite HE. cbn.
    intros [E|[E|[E|[]]]]; congruence.
  - intros HE. rewrite HE. cbn. auto.
Qed.

(** C5. With a resolvable load-balancer ARN, [_create] sends
    [default_actions] verbatim when it is set; otherwise, when
    [target_group] is set (and its ARN resolves), it sends the single
    synthesized forward action; otherwise it warns and returns [True]
    without any remote call. *)
Theorem create_routing_priority c arn :
  resolves (get_load_balancer_arn self) (Some arn) ->
  (forall actions, default_actions self = Some actions ->
     exists kw,
       calls_to CreateListener (emitted (_create self service_client c)) = [kw]
       /\ dict_get kw "DefaultActions" = Some (PList actions))
  /\ (forall tg tg_arn,
        default_actions self = None -> target_group self = Some tg ->
        tg_get_arn tg = Ret (Some tg_arn) ->
        exists kw,
          calls_to CreateListener (emitted (_create self service_client c))
          = [kw]
          /\ dict_get kw "DefaultActions" =
             Some (PList [PDict [("Type", PStr "forward");
                                 ("TargetGroupArn", PStr tg_arn)]]))
  /\ (default_actions self = None -> target_group self = None ->
      _create self service_client c =
      mkRun (Ret true) c
        [Log print_info_fn
           ("Creating " ++ get_resource_type self ++ ": "
            ++ get_resource_name self) NoObj;
         Log print_warning_fn
           ("Neither target group nor default actions provided for "
            ++ get_resource_name self) NoObj]).
Proof.
  intros Hlb. split; [|split].
  - intros actions Ha.
    destruct (create_with_default_actions self service_client c arn actions
                Hlb Ha) as (args & Hg & E).
    exists (("LoadBalancerArn", PStr arn) :: args). split.
    + rewrite E, emitted_prepend. cbn [app calls_to].
      apply create_request_calls.
    + exact Hg.
  - intros tg tg_arn Ha Ht Hr.
    destruct (create_with_target_group self service_client c arn tg tg_arn
                Hlb Ha Ht Hr) as (args & Hg & E).
    exists (("LoadBalancerArn", PStr arn) :: args). split.
    + rewrite E, emitted_prepend. cbn [app calls_to].
      apply create_request_calls.
    + exact Hg.
  - intros Ha Ht. unfold _create, print_info.
    rewrite bind_emit, (bind_resolves _ _ _ _ Hlb), Ha, Ht. reflexivity.
Qed.


(** C9. With a resolvable load-balancer ARN, no [default_actions] and a
    [target_group] whose ARN does not resolve, [_create] logs an error
    and returns [False] without any remote call. *)
Theorem create_unresolved_target_group_fails c arn tg :
  resolves (get_load_balancer_arn self) (Some arn) ->
  default_actions self = None -> target_group self = Some tg ->
  tg_get_arn tg = Ret None ->
  _create self service_client c =
  mkRun (Ret false) c
    [Log print_info_fn
       ("Creating " ++ get_resource_type self ++ ": "
        ++ get_resource_name self) NoObj;
     Log logger_error_fn "Target group ARN not available" NoObj]
  /\ forall op, calls_to op (emitted (_create self service_client c)) = [].
Proof.
  intros Hlb Ha Ht Hr.
  assert (E : _create self service_client c =
              mkRun (Ret false) c
                [Log print_info_fn
                   ("Creating " ++ get_resource_type self ++ ": "
                    ++ get_resource_name self) NoObj;
                 Log logger_error_fn "Target group ARN not available" NoObj]).
  { unfold _create, print_info.
    rewrite bind_emit, (bind_resolves _ _ _ _ Hlb), Ha, Ht, bind_lift, Hr.
    reflexivity. }
  split; [exact E|]. intros op. rewrite E. reflexivity.
Qed.

(** C6. With no load-balancer ARN, [_create] returns [True] and makes
    no remote call; when [get_arn], run as [_delete] runs it (on the
    cleared cache), returns [None], [_delete] returns [True] and makes
    no [delete_listener] call. *)
Theorem unresolved_reference_reports_success c :
  (resolves (get_load_balancer_arn self) None ->
   returned (_create self service_client c) = Ret true
   /\ forall op, calls_to op (emitted (_create self service_client c)) = [])
  /\ (returned (get_arn self service_client PNone) = Ret PNone ->
      returned (_delete self service_client c) = Ret true
      /\ calls_to DeleteListener (emitted (_delete self service_client c)) = []).
Proof.
  split.
  - intros Hlb. rewrite (create_unresolved_load_balancer _ _ c Hlb).
    split; [reflexivity|]. intros op. reflexivity.
  - intros Hg. rewrite delete_run. cbv zeta. rewrite Hg. cbn [is_none].
    split; [reflexivity|]. cbn [emitted calls_to].
    rewrite calls_to_app, get_arn_calls by reflexivity. reflexivity.
Qed.

(** C10. Let a remote response be a dict with a non-empty
    ["Listeners"] collection and no ["ListenerArn"] entry of its own,
    and let the first listener carry a ["ListenerArn"]. A create whose
    request got this response returns [True] with the whole response
    as the cache. Every update sends one modify request, and when that
    request gets this response the update returns [True] with the
    whole response as the cache. In both cases a lookup of
    ["ListenerArn"] in the cache gives [None]. A read that got this
    response returns and caches the first listener, and the same
    lookup gives its ARN. *)
Theorem active_resource_shape c d L1 rest :
  dict_get d "Listeners" = Some (PList (L1 :: rest)) ->
  dict_get d "ListenerArn" = None ->
  (exists a, py_get L1 "ListenerArn" PNone = Ret a /\ is_none a = false) ->
  (forall kw,
     calls_to CreateListener (emitted (_create self service_client c)) = [kw] ->
     create_listener service_client kw = Ret (PDict d) ->
     returned (_create self service_client c) = Ret true
     /\ active_resource (_create self service_client c) = PDict d
     /\ py_get (active_resource (_create self service_client c))
               "ListenerArn" PNone = Ret PNone)
  /\ (exists kw,
        calls_to ModifyListener (emitted (_update self service_client c))
        = [kw]
        /\ (modify_listener service_client kw = Ret (PDict d) ->
            returned (_update self service_client c) = Ret true
            /\ active_resource (_update self service_client c) = PDict d
            /\ py_get (active_resource (_update self service_client c))
                      "ListenerArn" PNone = Ret PNone))
  /\ (forall arn,
        resolves (get_load_balancer_arn self) (Some arn) ->
        describe_listeners service_client [("LoadBalancerArn", PStr arn)]
        = Ret (PDict d) ->
        returned (_read self service_client c) = Ret L1
        /\ active_resource (_read self service_client c) = L1
        /\ exists a,
             py_get (active_resource (_read self service_client c))
                    "ListenerArn" PNone = Ret a
             /\ is_none a = false).
Proof.
  intros Hl Hn Ha.
  assert (Hg : forall default,
             py_get (PDict d) "Listeners" default = Ret (PList (L1 :: rest))).
  { intros default. cbn. now rewrite Hl. }
  assert (Hm : py_get (PDict d) "ListenerArn" PNone = Ret PNone).
  { cbn. now rewrite Hn. }
  split; [|split].
  - intros kw Hc Hr.
    destruct (create_remote_success self service_client c kw _ _
                Hc Hr (Hg _) eq_refl) as [-> ->].
    repeat split. exact Hm.
  - destruct (update_calls self service_client c) as [_ [args Hk]].
    exists (("ListenerArn", PMethod "get_arn") :: args).
    split; [exact Hk|]. intros Hr.
    destruct (update_remote_success self service_client c _ _ _
                Hk Hr (Hg _) eq_refl) as [-> ->].
    repeat split. exact Hm.
  - intros arn Hlb Hd.
    rewrite (read_described self service_client arn _ _ c Hlb Hd (Hg _)).
    repeat split. exact Ha.
Qed.

End Contract.

(* ------------------------------------------------------------------ *)
(** ** The contract on the sample data *)

(** C8 at a spec on port 443 whose load balancer lists the port-80
    listener first. *)
Lemma read_returns_first_listener_witness :
  returned (@_read Sample.base Sample.bare Sample.two_listeners PNone)
  = Ret Sample.L1
  /\ active_resource (@_read Sample.base Sample.bare Sample.two_listeners PNone)
     = Sample.L1.
Proof.
  apply (@read_returns_first_listener Sample.base Sample.bare
           Sample.two_listeners PNone "lb-1"
           (Sample.response (PList [Sample.L1; Sample.L2]))
           Sample.L1 [Sample.L2]).
  - intros c. reflexivity.
  - reflexivity.
  - reflexivity.
Defined.

(** C2 as stated fails: with [L2] cached, an empty listener collection
    makes [_read] return [None], not the cached [L2]. *)
Lemma read_empty_collection_counterexample :
  let r := @_read Sample.base Sample.bare
             (Sample.client (Ret (Sample.response (PList [])))
                            (Raise Sample.unreachable))
             Sample.L2 in
  returned r = Ret PNone /\ active_resource r = PNone
  /\ returned r <> Ret Sample.L2.
Proof.
  cbv zeta. repeat split; try reflexivity. cbv. discriminate.
Qed.

(** The amended C2 on an empty collection with [L2] cached. *)
Lemma read_caches_found_else_falls_back_witness :
  let r := @_read Sample.base Sample.bare
             (Sample.client (Ret (Sample.response (PList [])))
                            (Raise Sample.unreachable))
             Sample.L2 in
  returned r = Ret PNone /\ active_resource r = PNone.
Proof.
  cbv zeta.
  apply (@read_caches_found_else_falls_back Sample.base Sample.bare
           (Sample.client (Ret (Sample.response (PList [])))
                          (Raise Sample.unreachable))
           Sample.L2 "lb-1" (Sample.response (PList [])) (PList [])).
  - intros c. reflexivity.
  - reflexivity.
  - reflexivity.
  - reflexivity.
Defined.

(** C4 as stated fails: with [L2] cached, a [ClientError] and any other
    error of [describe_listeners] both make [_read] return [L2]. *)
Lemma read_error_counterexample :
  returned (@_read Sample.base Sample.bare
              (Sample.client (Raise (ClientError "ListenerNotFound"))
                             (Raise Sample.unreachable))
              Sample.L2) = Ret Sample.L2
  /\ returned (@_read Sample.base Sample.bare
                 (Sample.client (Raise Sample.unreachable)
                                (Raise Sample.unreachable))
                 Sample.L2) = Ret Sample.L2
  /\ Sample.L2 <> PNone.
Proof.
  repeat split; try reflexivity. discriminate.
Qed.

(** The amended C4 at a [ClientError] with [L2] cached. *)
Lemma read_error_returns_cached_witness :
  returned (@_read Sample.base Sample.bare
              (Sample.client (Raise (ClientError "ListenerNotFound"))
                             (Raise Sample.unreachable))
              Sample.L2) = Ret Sample.L2.
Proof.
  apply (@read_error_returns_cached Sample.base Sample.bare
           (Sample.client (Raise (ClientError "ListenerNotFound"))
                          (Raise Sample.unreachable))
           Sample.L2 "lb-1" (ClientError "ListenerNotFound")).
  - intros c. reflexivity.
  - reflexivity.
Defined.

(** C5 at three specs on the load balancer ["lb-1"]: one with actions
    and a target group, one with a target group only, one with
    neither. *)
Lemma create_routing_priority_witness :
  (exists kw,
     calls_to CreateListener
       (emitted (@_create Sample.base Sample.with_actions
                   Sample.two_listeners PNone)) = [kw]
     /\ dict_get kw "DefaultActions" = Some (PList [Sample.action_A]))
  /\ (exists kw,
        calls_to CreateListener
          (emitted (@_create Sample.base Sample.forwarding
                      Sample.two_listeners PNone)) = [kw]
        /\ dict_get kw "DefaultActions" =
           Some (PList [PDict [("Type", PStr "forward");
                               ("TargetGroupArn", PStr "tg-1")]]))
  /\ returned (@_create Sample.base Sample.bare Sample.two_listeners PNone)
     = Ret true.
Proof.
  split; [|split].
  - apply (@create_routing_priority Sample.base Sample.with_actions
             Sample.two_listeners PNone "lb-1").
    + intros c. reflexivity.
    + reflexivity.
  - apply (proj1 (proj2
             (@create_routing_priority Sample.base Sample.forwarding
                Sample.two_listeners PNone "lb-1"
                (fun c => eq_refl)))
             Sample.tg_1 "tg-1"); reflexivity.
  - rewrite (proj2 (proj2
               (@create_routing_priority Sample.base Sample.bare
                  Sample.two_listeners PNone "lb-1"
                  (fun c => eq_refl))) eq_refl eq_refl).
    reflexivity.
Defined.


(** C9 at a spec whose target group has no ARN. *)
Lemma create_unresolved_target_group_fails_witness :
  returned (@_create Sample.base Sample.dangling Sample.two_listeners PNone)
  = Ret false
  /\ calls_to CreateListener
       (emitted (@_create Sample.base Sample.dangling
                   Sample.two_listeners PNone)) = [].
Proof.
  destruct (@create_unresolved_target_group_fails Sample.base Sample.dangling
              Sample.two_listeners PNone "lb-1" Sample.tg_gone
              (fun c => eq_refl) eq_refl eq_refl eq_refl) as [E Hc].
  split.
  - rewrite E. reflexivity.
  - apply Hc.
Defined.

(** C6 at a spec with no load balancer to resolve. *)
Lemma unresolved_reference_reports_success_witness :
  returned (@_create Sample.base Sample.orphan Sample.two_listeners Sample.L1)
  = Ret true
  /\ returned (@_delete Sample.base Sample.orphan Sample.two_listeners
                 Sample.L1) = Ret true
  /\ calls_to DeleteListener
       (emitted (@_delete Sample.base Sample.orphan Sample.two_listeners
                   Sample.L1)) = [].
Proof.
  destruct (@unresolved_reference_reports_success Sample.base Sample.orphan
              Sample.two_listeners Sample.L1) as [Hc Hd].
  split.
  - apply Hc. intros c. reflexivity.
  - apply Hd. reflexivity.
Defined.

(** C10 at the response that lists [L1] and [L2]: read caches [L1];
    create, and update on a client that answers the request it is
    sent, cache the whole response. *)
Lemma active_resource_shape_witness :
  active_resource (@_read Sample.base Sample.bare Sample.two_listeners PNone)
  = Sample.L1
  /\ active_resource
       (@_create Sample.base Sample.with_actions
          (Sample.client (Ret (Sample.response (PList [])))
             (Ret (Sample.response (PList [Sample.L1; Sample.L2]))))
          PNone)
     = Sample.response (PList [Sample.L1; Sample.L2])
  /\ (returned
        (@_update Sample.base Sample.bare
           (Faulty.answering
              (Ret (Sample.response (PList [Sample.L1; Sample.L2]))))
           Sample.L1) = Ret true
      /\ active_resource
           (@_update Sample.base Sample.bare
              (Faulty.answering
                 (Ret (Sample.response (PList [Sample.L1; Sample.L2]))))
              Sample.L1)
         = Sample.response (PList [Sample.L1; Sample.L2])).
Proof.
  pose proof (@active_resource_shape Sample.base Sample.bare
                Sample.two_listeners PNone
                [("Listeners", PList [Sample.L1; Sample.L2]);
                 ("ResponseMetadata", PDict [])]
                Sample.L1 [Sample.L2] eq_refl eq_refl
                (ex_intro _ (PStr "l-80") (conj eq_refl eq_refl)))
    as [_ [_ Hread]].
  pose proof (@active_resource_shape Sample.base Sample.with_actions
                (Sample.client (Ret (Sample.response (PList [])))
                   (Ret (Sample.response (PList [Sample.L1; Sample.L2]))))
                PNone
                [("Listeners", PList [Sample.L1; Sample.L2]);
                 ("ResponseMetadata", PDict [])]
                Sample.L1 [Sample.L2] eq_refl eq_refl
                (ex_intro _ (PStr "l-80") (conj eq_refl eq_refl)))
    as [Hcreate _].
  pose proof (@active_resource_shape Sample.base Sample.bare
                (Faulty.answering
                   (Ret (Sample.response (PList [Sample.L1; Sample.L2]))))
                Sample.L1
                [("Listeners", PList [Sample.L1; Sample.L2]);
                 ("ResponseMetadata", PDict [])]
                Sample.L1 [Sample.L2] eq_refl eq_refl
                (ex_intro _ (PStr "l-80") (conj eq_refl eq_refl)))
    as [_ [[kw [_ Hupdate]] _]].
  split; [|split].
  - apply (Hread "lb-1"); [intros c; reflexivity|reflexivity].
  - apply (Hcreate
             [("LoadBalancerArn", PStr "lb-1"); ("Protocol", PStr "HTTPS");
              ("Port", PInt 443);
              ("DefaultActions", PList [Sample.action_A])]);
      reflexivity.
  - destruct (Hupdate eq_refl) as (Hr & Ha & _). split; assumption.
Defined.

(** C1 fails on the code. On a spec for which no listener ARN can be
    obtained ([get_arn] returns [None]), [_update] does not read, sends
    [modify_listener] with the bound method [self.get_arn] as
    [ListenerArn], and returns [False] when boto3 refuses the
    parameter. *)
Theorem update_modifies_without_listener_arn :
  let r := @_update Sample.base Sample.orphan Sample.two_listeners PNone in
  returned (@get_arn Sample.base Sample.orphan Sample.two_listeners PNone)
  = Ret PNone
  /\ returned r = Ret false
  /\ calls_to DescribeListeners (emitted r) = []
  /\ calls_to ModifyListener (emitted r) =
     [[("ListenerArn", PMethod "get_arn"); ("Protocol", PStr "HTTPS");
       ("Port", PInt 443)]].
Proof.
  cbv zeta. repeat split; reflexivity.
Qed.

(** C3 fails on the code. On a load balancer that has listeners,
    [_delete] clears the cache, the nested read caches the first
    listener again, and after the successful [delete_listener] call the
    cache still holds the deleted listener. *)
Theorem delete_leaves_listener_cached :
  let r := @_delete Sample.base Sample.bare Sample.two_listeners PNone in
  returned r = Ret true
  /\ calls_to DeleteListener (emitted r) = [[("ListenerArn", PStr "l-80")]]
  /\ active_resource r = Sample.L1
  /\ is_none (active_resource r) = false.
Proof.
  cbv zeta. repeat split; reflexivity.
Qed.

(* ------------------------------------------------------------------ *)
(** ** Further properties: read *)

Lemma dict_get_set d k v k' :
  dict_get (dict_set d k v) k' =
  if String.eqb k' k then Some v else dict_get d k'.
Proof.
  induction d as [|[k0 v0] d IH]; cbn.
  - reflexivity.
  - destruct (String.eqb k k0) eqn:E; cbn.
    + apply String.eqb_eq in E. subst k0.
      destruct (String.eqb k' k); reflexivity.
    + rewrite IH. destruct (String.eqb k' k0) eqn:E0; [|reflexivity].
      apply String.eqb_eq in E0. subst k0.
      rewrite String.eqb_sym in E. now rewrite E.
Qed.

Lemma dict_get_set_not_null k x d k' :
  dict_get (set_not_null k x d) k' =
  if String.eqb k' k then
    match x with
    | Some v => Some v
    | None => dict_get d k'
    end
  else dict_get d k'.
Proof.
  destruct x; cbn; [apply dict_get_set|].
  now destruct (String.eqb k' k).
Qed.

Section ReadCoverage.

Context `{AwsResource Listener}.
Variable self : Listener.
Variable service_client : ServiceClient.

(** Every run of [_read], by the outcome of each step. *)
Lemma read_run c :
  _read self service_client c =
  let opening :=
    Log logger_debug_fn
      ("Reading " ++ get_resource_type self ++ ": " ++ get_resource_name self)
      NoObj in
  let handled e :=
    if is_ClientError e then
      [Log logger_debug_fn "ClientError: " (ObjExn e)]
    else
      [Log print_error_fn ("Error reading " ++ get_resource_type self ++ ".")
         NoObj;
       Log print_error_fn "" (ObjExn e)] in
  match returned (get_load_balancer_arn self PNone) with
  | Raise e => mkRun (Ret c) c (opening :: handled e)
  | Ret None => mkRun (Ret PNone) c [opening]
  | Ret (Some arn) =>
      let kw := [("LoadBalancerArn", PStr arn)] in
      match describe_listeners service_client kw with
      | Raise e =>
          mkRun (Ret c) c (opening :: Call DescribeListeners kw :: handled e)
      | Ret resp =>
          let described :=
            [opening; Call DescribeListeners kw;
             Log logger_debug_fn "Describe Response: " (ObjVal resp)] in
          match py_get resp "Listeners" PNone with
          | Raise e => mkRun (Ret c) c (described ++ handled e)
          | Ret (PList (x :: _)) => mkRun (Ret x) x described
          | Ret (PList []) => mkRun (Ret PNone) PNone described
          | Ret _ => mkRun (Ret c) c described
          end
      end
  end.
Proof.
  remember (returned (get_load_balancer_arn self PNone)) as lb eqn:Elb.
  unfold _read. run. rewrite get_load_balancer_arn_run, <- Elb.
  destruct lb as [[arn|]|e]; run.
  - destruct (describe_listeners service_client _) as [resp|e]; run.
    + destruct (py_get resp "Listeners" PNone) as [l|e]; run.
      * destruct l as [| | | |[|x l]| |]; reflexivity.
      * destruct (is_ClientError e); reflexivity.
    + destruct (is_ClientError e); reflexivity.
  - reflexivity.
  - destruct (is_ClientError e); reflexivity.
Qed.

(** X1. Given the service client, every error of class [Exception]
    that the load-balancer resolution, the describe request or the
    lookup in its response raises is handled inside [_read]: [_read]
    then returns a value, which is the cache as the read leaves it, or
    [None] with the cache untouched. (Exceptions outside [Exception]
    and a failing [get_service_client], which the [try] does not
    cover, are not part of the model.) *)
Theorem read_returns_cache_or_none c :
  exists v,
    returned (_read self service_client c) = Ret v
    /\ (v = active_resource (_read self service_client c)
        \/ (v = PNone /\ active_resource (_read self service_client c) = c)).
Proof.
  rewrite read_run. cbv zeta.
  destruct (returned (get_load_balancer_arn self PNone)) as [[arn|]|e];
    [|cbn; eauto..].
  destruct (describe_listeners service_client _) as [resp|e]; [|cbn; eauto].
  destruct (py_get resp "Listeners" PNone) as [l|e]; [|cbn; eauto].
  destruct l as [| | | |[|x l]| |]; cbn; eauto.
Qed.

(** X2. [_read] sends at most one request, a [describe_listeners]; it
    never creates, modifies or deletes. *)
Theorem read_only_describes c :
  length (calls_to DescribeListeners (emitted (_read self service_client c)))
  <= 1
  /\ calls_to CreateListener (emitted (_read self service_client c)) = []
  /\ calls_to ModifyListener (emitted (_read self service_client c)) = []
  /\ calls_to DeleteListener (emitted (_read self service_client c)) = [].
Proof.
  rewrite read_run. cbv zeta.
  destruct (returned (get_load_balancer_arn self PNone)) as [[arn|]|e].
  - destruct (describe_listeners service_client _) as [resp|e].
    + destruct (py_get resp "Listeners" PNone) as [l|e].
      * destruct l as [| | | |[|x l]| |]; cbn; auto.
      * destruct (is_ClientError e); cbn; auto.
    + destruct (is_ClientError e); cbn; auto.
  - cbn; auto.
  - destruct (is_ClientError e); cbn; auto.
Qed.

(** X3. A second [_read], on the cache the first one left, is the
    same run as the first: same result, same cache, same events. *)
Theorem read_twice c :
  _read self service_client (active_resource (_read self service_client c))
  = _read self service_client c.
Proof.
  rewrite (read_run c). cbv zeta.
  destruct (returned (get_load_balancer_arn self PNone)) as [[arn|]|e] eqn:Elb;
    cbn [active_resource]; rewrite read_run; cbv zeta; rewrite Elb;
    [|reflexivity..].
  destruct (describe_listeners service_client _) as [resp|e] eqn:Ed;
    cbn [active_resource]; rewrite ?Ed; [|reflexivity].
  destruct (py_get resp "Listeners" PNone) as [l|e] eqn:Eg;
    cbn [active_resource]; rewrite ?Ed, ?Eg; [|reflexivity].
  destruct l as [| | | |[|x l]| |]; cbn [active_resource];
    rewrite ?Ed, ?Eg; reflexivity.
Qed.

(** X4. Without a load-balancer ARN, [_read] returns [None] even when
    a record is cached; the cache stays as it is and no request is
    sent. *)
Theorem read_without_load_balancer c :
  resolves (get_load_balancer_arn self) None ->
  returned (_read self service_client c) = Ret PNone
  /\ active_resource (_read self service_client c) = c
  /\ forall op, calls_to op (emitted (_read self service_client c)) = [].
Proof.
  intros Hlb. rewrite read_run. cbv zeta.
  pose proof (Hlb PNone) as E. rewrite get_load_balancer_arn_run in E.
  injection E as E. rewrite E. repeat split.
Qed.

(** X5. A describe response that is not a dict is handled like any
    other error: the [AttributeError] of the lookup is printed, the
    cache stays as it is and the cached value is returned. *)
Theorem read_malformed_response c arn resp e :
  resolves (get_load_balancer_arn self) (Some arn) ->
  describe_listeners service_client [("LoadBalancerArn", PStr arn)] = Ret resp ->
  py_get resp "Listeners" PNone = Raise e ->
  returned (_read self service_client c) = Ret c
  /\ active_resource (_read self service_client c) = c
  /\ exists msg,
       e = AttributeError msg
       /\ In (Log print_error_fn "" (ObjExn e))
             (emitted (_read self service_client c)).
Proof.
  intros Hlb Hd Hg. rewrite read_run. cbv zeta.
  pose proof (Hlb PNone) as E. rewrite get_load_balancer_arn_run in E.
  injection E as E. rewrite E, Hd, Hg.
  repeat split.
  destruct resp; cbn in Hg; try discriminate Hg;
    injection Hg as <-; eexists; (split; [reflexivity|]); cbn; auto 10.
Qed.

End ReadCoverage.

(** X4 at a spec with no load balancer and [L1] cached. *)
Lemma read_without_load_balancer_witness :
  returned (@_read Sample.base Sample.orphan Sample.two_listeners Sample.L1)
  = Ret PNone
  /\ active_resource
       (@_read Sample.base Sample.orphan Sample.two_listeners Sample.L1)
     = Sample.L1.
Proof.
  destruct (@read_without_load_balancer Sample.base Sample.orphan
              Sample.two_listeners Sample.L1 (fun c => eq_refl))
    as (Hr & Ha & _).
  split; assumption.
Defined.

(** X5 at a response that is a string. *)
Lemma read_malformed_response_witness :
  returned (@_read Sample.base Sample.bare
              (Faulty.answering (Ret (PStr "<html>"))) Sample.L1)
  = Ret Sample.L1.
Proof.
  apply (@read_malformed_response Sample.base Sample.bare
           (Faulty.answering (Ret (PStr "<html>"))) Sample.L1 "lb-1"
           (PStr "<html>")
           (AttributeError "'str' object has no attribute 'get'")
           (fun c => eq_refl) eq_refl eq_refl).
Defined.

(* ------------------------------------------------------------------ *)
(** ** Further properties: create *)

Section CreateCoverage.

Context `{AwsResource Listener}.
Variable self : Listener.
Variable service_client : ServiceClient.

(** A run of [_create] that sends nothing leaves the cache alone; any
    other run is the one remote request after the opening log line. *)
Lemma create_run_quiet_or_request c :
  (active_resource (_create self service_client c) = c
   /\ forall op, calls_to op (emitted (_create self service_client c)) = [])
  \/ exists arn args,
       _create self service_client c =
       prepend
         [Log print_info_fn
            ("Creating " ++ get_resource_type self ++ ": "
             ++ get_resource_name self) NoObj]
         (create_request self service_client arn args c).
Proof.
  unfold _create, print_info.
  rewrite bind_emit, bind_get_load_balancer_arn.
  destruct (returned (get_load_balancer_arn self PNone)) as [[arn|]|e].
  - destruct (default_actions self) as [acts|].
    + right. eexists _, _. reflexivity.
    + destruct (target_group self) as [tg|].
      * rewrite bind_lift.
        destruct (tg_get_arn tg) as [[tga|]|e].
        -- right. eexists _, _. reflexivity.
        -- left. split; [reflexivity|intros op; reflexivity].
        -- left. split; [reflexivity|intros op; reflexivity].
      * left. split; [reflexivity|intros op; reflexivity].
  - left. split; [reflexivity|intros op; reflexivity].
  - left. split; [reflexivity|intros op; reflexivity].
Qed.

(** X6. [_create] changes the cache in one case only: it returns
    [True] after a create request, and the cache is then the response
    to that request. *)
Theorem create_cache_invariant c :
  active_resource (_create self service_client c) = c
  \/ (returned (_create self service_client c) = Ret true
      /\ exists kw,
           calls_to CreateListener (emitted (_create self service_client c))
           = [kw]
           /\ create_listener service_client kw
              = Ret (active_resource (_create self service_client c))).
Proof.
  destruct (create_run_quiet_or_request c) as [[Hc _]|(arn & args & E)];
    [now left|].
  rewrite E, returned_prepend, active_resource_prepend, emitted_prepend.
  cbn [app calls_to]. rewrite create_request_calls, create_request_run.
  cbv zeta.
  destruct (create_listener service_client _) as [resp|e] eqn:Er;
    [|now left].
  destruct (py_get resp "Listeners" (PDict [])) as [l|e]; [|now left].
  destruct (is_none l); [now left|].
  right. split; [reflexivity|]. eexists. split; [reflexivity|exact Er].
Qed.

(** X7. [_create] sends at most one request, a [create_listener]: it
    never describes (it does not look for an existing listener first),
    modifies or deletes. *)
Theorem create_only_creates c :
  length (calls_to CreateListener (emitted (_create self service_client c)))
  <= 1
  /\ calls_to DescribeListeners (emitted (_create self service_client c)) = []
  /\ calls_to ModifyListener (emitted (_create self service_client c)) = []
  /\ calls_to DeleteListener (emitted (_create self service_client c)) = [].
Proof.
  destruct (create_run_quiet_or_request c) as [[_ Hn]|(arn & args & E)].
  - rewrite !Hn. cbn. auto.
  - rewrite E, emitted_prepend, create_request_run. cbv zeta.
    destruct (create_listener service_client _) as [resp|e]; [|cbn; auto].
    destruct (py_get resp "Listeners" (PDict [])) as [l|e]; [|cbn; auto].
    destruct (is_none l); cbn; auto.
Qed.

(** X8. The ARN resolutions of [_create] are outside its [try]: an
    exception of the load balancer's or of the target group's
    [get_arn] makes [_create] raise it, after the opening log line
    only, with the cache as it was. *)
Theorem create_raises_resolution_errors c e :
  (fails (get_load_balancer_arn self) e ->
   _create self service_client c =
   mkRun (Raise e) c
     [Log print_info_fn
        ("Creating " ++ get_resource_type self ++ ": "
         ++ get_resource_name self) NoObj])
  /\ (forall arn tg,
        resolves (get_load_balancer_arn self) (Some arn) ->
        default_actions self = None -> target_group self = Some tg ->
        tg_get_arn tg = Raise e ->
        _create self service_client c =
        mkRun (Raise e) c
          [Log print_info_fn
             ("Creating " ++ get_resource_type self ++ ": "
              ++ get_resource_name self) NoObj]).
Proof.
  split.
  - intros Hf. unfold _create, print_info. rewrite bind_emit.
    unfold bind. rewrite (Hf c). reflexivity.
  - intros arn tg Hlb Ha Ht Hr. unfold _create, print_info.
    rewrite bind_emit, (bind_resolves _ _ _ _ Hlb), Ha, Ht, bind_lift, Hr.
    reflexivity.
Qed.

(** X9. The request of [_create] carries exactly the optional fields
    that are set, each with the value of the spec, besides a
    load-balancer ARN and a list of default actions. *)
Theorem create_sends_set_fields c kw :
  calls_to CreateListener (emitted (_create self service_client c)) = [kw] ->
  dict_get kw "Protocol" = option_map PStr (protocol self)
  /\ dict_get kw "Port" = option_map PInt (port self)
  /\ dict_get kw "SslPolicy" = option_map PStr (ssl_policy self)
  /\ dict_get kw "Certificates" = option_map PList (certificates self)
  /\ dict_get kw "AlpnPolicy"
     = option_map (fun l => PList (map PStr l)) (alpn_policy self)
  /\ dict_get kw "Tags" = option_map PList (tags self)
  /\ (exists arn, dict_get kw "LoadBalancerArn" = Some (PStr arn))
  /\ (exists actions, dict_get kw "DefaultActions" = Some (PList actions)).
Proof.
  unfold _create, print_info.
  rewrite bind_emit, bind_get_load_balancer_arn.
  destruct (returned (get_load_balancer_arn self PNone)) as [[arn|]|e];
    [|intros Hc; discriminate Hc..].
  assert (Hfields : forall v,
    let kw := ("LoadBalancerArn", PStr arn)
              :: dict_set
                   (set_not_null "Tags" (option_map PList (tags self))
                      (set_not_null "AlpnPolicy"
                         (option_map (fun l => PList (map PStr l))
                            (alpn_policy self))
                         (set_not_null "Certificates"
                            (option_map PList (certificates self))
                            (set_not_null "SslPolicy"
                               (option_map PStr (ssl_policy self))
                               (set_not_null "Port"
                                  (option_map PInt (port self))
                                  (set_not_null "Protocol"
                                     (option_map PStr (protocol self))
                                     []))))))
                   "DefaultActions" (PList v) in
    dict_get kw "Protocol" = option_map PStr (protocol self)
    /\ dict_get kw "Port" = option_map PInt (port self)
    /\ dict_get kw "SslPolicy" = option_map PStr (ssl_policy self)
    /\ dict_get kw "Certificates" = option_map PList (certificates self)
    /\ dict_get kw "AlpnPolicy"
       = option_map (fun l => PList (map PStr l)) (alpn_policy self)
    /\ dict_get kw "Tags" = option_map PList (tags self)
    /\ (exists arn, dict_get kw "LoadBalancerArn" = Some (PStr arn))
    /\ (exists actions, dict_get kw "DefaultActions" = Some (PList actions))).
  { intros v. cbv zeta.
    repeat apply conj; try eexists; cbn [dict_get];
      rewrite ?dict_get_set, ?dict_get_set_not_null;
      cbn [String.eqb Ascii.eqb Bool.eqb dict_get];
      try reflexivity.
    - now destruct (protocol self).
    - now destruct (port self).
    - now destruct (ssl_policy self).
    - now destruct (certificates self).
    - now destruct (alpn_policy self).
    - now destruct (tags self). }
  destruct (default_actions self) as [acts|].
  - rewrite emitted_prepend. cbn [app calls_to].
    rewrite create_request_calls. intros Hc. injection Hc as <-.
    apply Hfields.
  - destruct (target_group self) as [tg|]; [|intros Hc; discriminate Hc].
    rewrite bind_lift.
    destruct (tg_get_arn tg) as [[tga|]|e]; [|intros Hc; discriminate Hc..].
    rewrite emitted_prepend. cbn [app calls_to].
    rewrite create_request_calls. intros Hc. injection Hc as <-.
    apply Hfields.
Qed.

(** X10. What [_create] makes of a response: without a ["Listeners"]
    entry the creation counts as done ([True], response cached); with
    ["Listeners"] set to [None] it returns [False] with the cache as
    it was and prints no error; a response that is not a dict gives
    [False] with the cache as it was. *)
Theorem create_response_validation c kw :
  calls_to CreateListener (emitted (_create self service_client c)) = [kw] ->
  (forall d,
     create_listener service_client kw = Ret (PDict d) ->
     dict_get d "Listeners" = None ->
     returned (_create self service_client c) = Ret true
     /\ active_resource (_create self service_client c) = PDict d)
  /\ (forall d,
        create_listener service_client kw = Ret (PDict d) ->
        dict_get d "Listeners" = Some PNone ->
        returned (_create self service_client c) = Ret false
        /\ active_resource (_create self service_client c) = c
        /\ forall text obj,
             ~ In (Log print_error_fn text obj)
                  (emitted (_create self service_client c)))
  /\ (forall resp e,
        create_listener service_client kw = Ret resp ->
        py_get resp "Listeners" (PDict []) = Raise e ->
        returned (_create self service_client c) = Ret false
        /\ active_resource (_create self service_client c) = c).
Proof.
  intros Hc.
  destruct (create_issued self service_client c kw Hc)
    as (arn & args & -> & E).
  rewrite E, returned_prepend, active_resource_prepend, emitted_prepend,
    create_request_run.
  cbv zeta. split; [|split].
  - intros d Hr Hl. rewrite Hr. cbn. rewrite Hl. split; reflexivity.
  - intros d Hr Hl. rewrite Hr. cbn. rewrite Hl. cbn.
    repeat split. intros text obj [F|[F|[F|[]]]]; discriminate F.
  - intros resp e Hr Hg. rewrite Hr, Hg. split; reflexivity.
Qed.

End CreateCoverage.

(** X8 at a listener whose load balancer cannot be reached. *)
Lemma create_raises_resolution_errors_witness :
  returned (@_create Sample.base (Faulty.behind Faulty.lb_down None)
              Sample.two_listeners Sample.L1)
  = Raise Sample.unreachable.
Proof.
  rewrite (proj1 (@create_raises_resolution_errors Sample.base
                    (Faulty.behind Faulty.lb_down None)
                    Sample.two_listeners Sample.L1 Sample.unreachable)
             (fun c => eq_refl)).
  reflexivity.
Defined.

(** X9 at a listener with every optional field set. *)
Lemma create_sends_set_fields_witness :
  calls_to CreateListener
    (emitted (@_create Sample.base Faulty.full Sample.two_listeners PNone))
  = [[("LoadBalancerArn", PStr "lb-1"); ("Protocol", PStr "HTTPS");
      ("Port", PInt 443); ("SslPolicy", PStr "ELBSecurityPolicy-2016-08");
      ("Certificates", PList [PDict [("CertificateArn", PStr "cert-1")]]);
      ("AlpnPolicy", PList [PStr "HTTP2Preferred"]);
      ("Tags", PList [PDict [("Key", PStr "env"); ("Value", PStr "prd")]]);
      ("DefaultActions", PList [Sample.action_A])]]
  /\ dict_get
       [("LoadBalancerArn", PStr "lb-1"); ("Protocol", PStr "HTTPS");
        ("Port", PInt 443); ("SslPolicy", PStr "ELBSecurityPolicy-2016-08");
        ("Certificates", PList [PDict [("CertificateArn", PStr "cert-1")]]);
        ("AlpnPolicy", PList [PStr "HTTP2Preferred"]);
        ("Tags", PList [PDict [("Key", PStr "env"); ("Value", PStr "prd")]]);
        ("DefaultActions", PList [Sample.action_A])]
       "SslPolicy"
     = option_map PStr (ssl_policy Faulty.full).
Proof.
  split; [reflexivity|].
  apply (@create_sends_set_fields Sample.base Faulty.full Sample.two_listeners
           PNone _ eq_refl).
Defined.

(** X10 at a response without a ["Listeners"] entry. *)
Lemma create_response_validation_witness :
  returned (@_create Sample.base Sample.with_actions
              (Faulty.answering (Ret (PDict []))) Sample.L1)
  = Ret true
  /\ active_resource (@_create Sample.base Sample.with_actions
                        (Faulty.answering (Ret (PDict []))) Sample.L1)
     = PDict [].
Proof.
  apply (proj1 (@create_response_validation Sample.base Sample.with_actions
                  (Faulty.answering (Ret (PDict []))) Sample.L1
                  [("LoadBalancerArn", PStr "lb-1");
                   ("Protocol", PStr "HTTPS"); ("Port", PInt 443);
                   ("DefaultActions", PList [Sample.action_A])]
                  eq_refl)
           []); reflexivity.
Defined.

(* ------------------------------------------------------------------ *)
(** ** Further properties: update, delete and the listener ARN *)

Section UpdateDeleteCoverage.

Context `{AwsResource Listener}.
Variable self : Listener.
Variable service_client : ServiceClient.

(** X11. Given the service client, every error of class [Exception]
    of the modify request or of the lookup in its response is caught
    by the handler of [_update], and [_update] has two outcomes: it
    returns [True] and the cache is the response to its modify
    request, or it returns [False] and the cache is as it was.
    (Exceptions outside [Exception] and a failing
    [get_service_client], which the [try] does not cover, are not part
    of the model.) *)
Theorem update_outcome c :
  (returned (_update self service_client c) = Ret true
   /\ exists kw,
        calls_to ModifyListener (emitted (_update self service_client c))
        = [kw]
        /\ modify_listener service_client kw
           = Ret (active_resource (_update self service_client c)))
  \/ (returned (_update self service_client c) = Ret false
      /\ active_resource (_update self service_client c) = c).
Proof.
  destruct (update_run self service_client c) as [args E]. cbv zeta in E.
  rewrite E.
  destruct (modify_listener service_client _) as [resp|e] eqn:Er;
    [|right; split; reflexivity].
  destruct (py_get resp "Listeners" (PDict [])) as [l|e];
    [|right; split; reflexivity].
  destruct (is_none l); [right; split; reflexivity|].
  left. split; [reflexivity|]. eexists. split; [reflexivity|exact Er].
Qed.

(** X12. The modify request carries the optional fields that are set,
    each with the value of the spec; its default actions are those of
    the spec only (none is synthesized from the target group), and it
    never carries tags. *)
Theorem update_sends_set_fields c kw :
  calls_to ModifyListener (emitted (_update self service_client c)) = [kw] ->
  dict_get kw "Protocol" = option_map PStr (protocol self)
  /\ dict_get kw "Port" = option_map PInt (port self)
  /\ dict_get kw "SslPolicy" = option_map PStr (ssl_policy self)
  /\ dict_get kw "Certificates" = option_map PList (certificates self)
  /\ dict_get kw "DefaultActions" = option_map PList (default_actions self)
  /\ dict_get kw "AlpnPolicy"
     = option_map (fun l => PList (map PStr l)) (alpn_policy self)
  /\ dict_get kw "Tags" = None.
Proof.
  unfold _update. cbv zeta. cbn [is_none].
  match goal with
  | |- context [invoke ModifyListener _ ?k] => set (sent := k)
  end.
  intros Hc.
  assert (Hk : kw = sent).
  { revert Hc. run.
    destruct (modify_listener service_client sent) as [resp|e]; run.
    - destruct (py_get resp "Listeners" (PDict [])) as [l|e]; run.
      + destruct (is_none l); cbn; congruence.
      + cbn; congruence.
    - cbn; congruence. }
  clear Hc. subst kw sent.
  repeat apply conj; cbn [dict_get];
    rewrite ?dict_get_set_not_null;
    cbn [String.eqb Ascii.eqb Bool.eqb dict_get];
    try reflexivity.
  - now destruct (protocol self).
  - now destruct (port self).
  - now destruct (ssl_policy self).
  - now destruct (certificates self).
  - now destruct (default_actions self).
  - now destruct (alpn_policy self).
Qed.

(** X13. [_delete] does not depend on what was cached: from any two
    caches it is the same run, with the same result, the same final
    cache and the same events. *)
Theorem delete_ignores_cache c c' :
  _delete self service_client c = _delete self service_client c'.
Proof. now rewrite !delete_run. Qed.

(** X14. Given the service client, every error of class [Exception]
    raised under [get_arn] or by the delete request is caught by the
    handler of [_delete]: [_delete] returns [True], or it returns
    [False] after printing the advice to retry or delete by hand.
    (Exceptions outside [Exception] and a failing
    [get_service_client], which the [try] does not cover, are not part
    of the model.) *)
Theorem delete_handles_errors c :
  returned (_delete self service_client c) = Ret true
  \/ (returned (_delete self service_client c) = Ret false
      /\ In (Log print_error_fn
               "Please try again or delete resources manually." NoObj)
            (emitted (_delete self service_client c))).
Proof.
  rewrite delete_run. cbv zeta.
  destruct (returned (get_arn self service_client PNone)) as [a|e].
  - destruct (is_none a); [now left|].
    destruct (delete_listener service_client _) as [resp|e]; [now left|].
    right. split; [reflexivity|]. cbn [emitted]. right.
    apply in_or_app. right. cbn. auto.
  - right. split; [reflexivity|]. cbn [emitted]. right.
    apply in_or_app. right. cbn. auto.
Qed.

(** X15. [_delete] sends at most one [describe_listeners] and at most
    one [delete_listener] request, and never creates or modifies. *)
Theorem delete_only_describes_and_deletes c :
  length (calls_to DescribeListeners (emitted (_delete self service_client c)))
  <= 1
  /\ length (calls_to DeleteListener (emitted (_delete self service_client c)))
     <= 1
  /\ calls_to CreateListener (emitted (_delete self service_client c)) = []
  /\ calls_to ModifyListener (emitted (_delete self service_client c)) = [].
Proof.
  assert (Hd : length (calls_to DescribeListeners
                         (emitted (get_arn self service_client PNone))) <= 1).
  { rewrite get_arn_run. cbn [emitted]. rewrite read_run. cbv zeta.
    destruct (returned (get_load_balancer_arn self PNone)) as [[arn|]|e].
    - destruct (describe_listeners service_client _) as [resp|e].
      + destruct (py_get resp "Listeners" PNone) as [l|e].
        * destruct l as [| | | |[|x l]| |]; cbn; auto.
        * destruct (is_ClientError e); cbn; auto.
      + destruct (is_ClientError e); cbn; auto.
    - cbn; auto.
    - destruct (is_ClientError e); cbn; auto. }
  rewrite delete_run. cbv zeta.
  repeat apply conj;
    (destruct (returned (get_arn self service_client PNone)) as [a|e];
     [destruct (is_none a);
      [|destruct (delete_listener service_client _) as [resp|e]]|];
     cbn [emitted calls_to remote_op_eqb];
     rewrite calls_to_app;
     rewrite ?(get_arn_calls self service_client DeleteListener),
       ?(get_arn_calls self service_client CreateListener),
       ?(get_arn_calls self service_client ModifyListener) by reflexivity;
     cbn [calls_to remote_op_eqb app length];
     rewrite ?app_nil_r; auto).
Qed.

(** X16. The listener [_delete] removes is the first one of the load
    balancer: when the collection is [L1 :: rest] and [L1] carries an
    ARN, the one delete request names that ARN, and [_delete] returns
    [True] when the request succeeds and [False] when it raises. *)
Theorem delete_targets_first_listener c arn resp L1 rest a :
  resolves (get_load_balancer_arn self) (Some arn) ->
  describe_listeners service_client [("LoadBalancerArn", PStr arn)] = Ret resp ->
  py_get resp "Listeners" PNone = Ret (PList (L1 :: rest)) ->
  py_get L1 "ListenerArn" PNone = Ret a -> is_none a = false ->
  calls_to DeleteListener (emitted (_delete self service_client c))
  = [[("ListenerArn", a)]]
  /\ (forall r, delete_listener service_client [("ListenerArn", a)] = Ret r ->
      returned (_delete self service_client c) = Ret true)
  /\ (forall e, delete_listener service_client [("ListenerArn", a)] = Raise e ->
      returned (_delete self service_client c) = Ret false).
Proof.
  intros Hlb Hd Hg Ha Hna.
  assert (Hn : is_none L1 = false)
    by (destruct L1; try discriminate Ha; reflexivity).
  assert (Hcalls : calls_to DeleteListener
                     (emitted (_read self service_client PNone)) = [])
    by now apply read_calls.
  rewrite delete_run, get_arn_run. cbv zeta.
  cbn [returned active_resource emitted].
  rewrite (read_described self service_client arn _ _ PNone Hlb Hd Hg)
    in Hcalls |- *.
  cbv zeta in Hcalls |- *. cbn [returned active_resource emitted] in *.
  rewrite Hn, Ha, Hna.
  split; [|split].
  - destruct (delete_listener service_client _); reflexivity.
  - intros r ->. reflexivity.
  - intros e ->. reflexivity.
Qed.

(** X17. The lookup of [get_arn] on what [_read] returned: [None] for
    [None]; for a dict its ["ListenerArn"] entry, [None] when there is
    none; for any other value an [AttributeError]. The cache and the
    events are those of the read. *)
Theorem get_arn_lookup c v :
  returned (_read self service_client c) = Ret v ->
  active_resource (get_arn self service_client c)
  = active_resource (_read self service_client c)
  /\ emitted (get_arn self service_client c)
     = emitted (_read self service_client c)
  /\ (v = PNone -> returned (get_arn self service_client c) = Ret PNone)
  /\ (forall d, v = PDict d ->
        returned (get_arn self service_client c)
        = Ret (match dict_get d "ListenerArn" with
               | Some x => x
               | None => PNone
               end))
  /\ (is_none v = false -> (forall d, v <> PDict d) ->
      exists msg,
        returned (get_arn self service_client c) = Raise (AttributeError msg)).
Proof.
  intros Hr. rewrite get_arn_run. cbv zeta. cbn [returned active_resource emitted].
  rewrite Hr. repeat apply conj; try reflexivity.
  - intros ->. reflexivity.
  - intros d ->. reflexivity.
  - intros Hn Hd. rewrite Hn.
    destruct v; try discriminate Hn; cbn; eauto.
    now destruct (Hd d).
Qed.

(** X18. When the first listener found is not a record (it has no
    [get]), [_delete] returns [False] and sends no delete request. *)
Theorem delete_malformed_listener c arn resp L1 rest e :
  resolves (get_load_balancer_arn self) (Some arn) ->
  describe_listeners service_client [("LoadBalancerArn", PStr arn)] = Ret resp ->
  py_get resp "Listeners" PNone = Ret (PList (L1 :: rest)) ->
  is_none L1 = false ->
  py_get L1 "ListenerArn" PNone = Raise e ->
  returned (_delete self service_client c) = Ret false
  /\ calls_to DeleteListener (emitted (_delete self service_client c)) = [].
Proof.
  intros Hlb Hd Hg Hn Ha.
  rewrite delete_run, get_arn_run. cbv zeta.
  cbn [returned active_resource emitted].
  rewrite (read_described self service_client arn _ _ PNone Hlb Hd Hg).
  cbv zeta. cbn [returned active_resource emitted].
  rewrite Hn, Ha. split; reflexivity.
Qed.

End UpdateDeleteCoverage.

(** X12 at a listener with every optional field set. *)
Lemma update_sends_set_fields_witness :
  dict_get
    [("ListenerArn", PMethod "get_arn"); ("Protocol", PStr "HTTPS");
     ("Port", PInt 443); ("SslPolicy", PStr "ELBSecurityPolicy-2016-08");
     ("Certificates", PList [PDict [("CertificateArn", PStr "cert-1")]]);
     ("DefaultActions", PList [Sample.action_A]);
     ("AlpnPolicy", PList [PStr "HTTP2Preferred"])]
    "Tags" = None
  /\ tags Faulty.full <> None.
Proof.
  split.
  - apply (@update_sends_set_fields Sample.base Faulty.full
             Sample.two_listeners PNone _ eq_refl).
  - discriminate.
Defined.

(** X16 at the load balancer that lists [L1] and [L2], once with a
    client that deletes and once with one that refuses. *)
Lemma delete_targets_first_listener_witness :
  returned (@_delete Sample.base Sample.bare Sample.two_listeners Sample.L2)
  = Ret true
  /\ returned (@_delete Sample.base Sample.bare
                 (Faulty.undeletable (PList [Sample.L1; Sample.L2]))
                 Sample.L2) = Ret false
  /\ calls_to DeleteListener
       (emitted (@_delete Sample.base Sample.bare
                   (Faulty.undeletable (PList [Sample.L1; Sample.L2]))
                   Sample.L2))
     = [[("ListenerArn", PStr "l-80")]].
Proof.
  destruct (@delete_targets_first_listener Sample.base Sample.bare
              Sample.two_listeners Sample.L2 "lb-1"
              (Sample.response (PList [Sample.L1; Sample.L2]))
              Sample.L1 [Sample.L2] (PStr "l-80")
              (fun c => eq_refl) eq_refl eq_refl eq_refl eq_refl)
    as (_ & Hok & _).
  destruct (@delete_targets_first_listener Sample.base Sample.bare
              (Faulty.undeletable (PList [Sample.L1; Sample.L2]))
              Sample.L2 "lb-1"
              (Sample.response (PList [Sample.L1; Sample.L2]))
              Sample.L1 [Sample.L2] (PStr "l-80")
              (fun c => eq_refl) eq_refl eq_refl eq_refl eq_refl)
    as (Hcall & _ & Hko).
  split; [|split].
  - apply (Hok (PDict [])). reflexivity.
  - apply (Hko (ClientError "ResourceInUse")). reflexivity.
  - exact Hcall.
Defined.

(** X17 at a listener record without a ["ListenerArn"] entry. *)
Lemma get_arn_lookup_witness :
  returned (@get_arn Sample.base Sample.bare
              (Faulty.undeletable (PList [PDict [("Port", PInt 80)]]))
              PNone)
  = Ret PNone.
Proof.
  apply (proj1 (proj2 (proj2 (proj2
           (@get_arn_lookup Sample.base Sample.bare
              (Faulty.undeletable (PList [PDict [("Port", PInt 80)]]))
              PNone (PDict [("Port", PInt 80)]) eq_refl))))
           [("Port", PInt 80)] eq_refl).
Defined.

(** X18 at a collection whose first element is a string. *)
Lemma delete_malformed_listener_witness :
  returned (@_delete Sample.base Sample.bare
              (Faulty.undeletable (PList [PStr "l-80"])) PNone)
  = Ret false
  /\ calls_to DeleteListener
       (emitted (@_delete Sample.base Sample.bare
                   (Faulty.undeletable (PList [PStr "l-80"])) PNone))
     = [].
Proof.
  apply (@delete_malformed_listener Sample.base Sample.bare
           (Faulty.undeletable (PList [PStr "l-80"])) PNone "lb-1"
           (Sample.response (PList [PStr "l-80"])) (PStr "l-80") []
           (AttributeError "'str' object has no attribute 'get'")
           (fun c => eq_refl) eq_refl eq_refl eq_refl eq_refl).
Defined.
